(** * lmo / beauti: translate and beautify text through a chat-completion API

    A shallow embedding of the two variants of the command-line tool,
    [src/beauti.py] (module [Beauti]) and [src/scripts/beauti.py] (module
    [ScriptsBeauti]), and the properties their specification states.

    Python values are modelled as the code has them: a [str] is the list of
    its Unicode code points, a [dict] built by a comprehension is an
    insertion-ordered association list, [os.environ] is a finite map, and
    every effect (reading the environment, talking to the remote endpoint,
    logging) goes through a state-and-exception monad whose state records
    the trace of what happened. *)

From Stdlib Require Import NArith List String Ascii Bool Lia.
From stdpp Require Import base decidable option numbers list countable gmap.

Local Open Scope N_scope.

(** ** Python strings *)

(** A Python [str] is a sequence of code points. *)
Abbreviation str := (list N).

(** A literal of the source, written with ASCII characters only. *)
Definition lit (s : string) : str :=
  map N_of_ascii (list_ascii_of_string s).
Arguments lit s%_string.

(** The empty string. *)
Definition EMPTY : str := [].

(** ["\n"] *)
Definition NL : str := [10].

(** [sep.join(xs)] *)
Fixpoint join (sep : str) (xs : list str) : str :=
  match xs with
  | [] => []
  | [x] => x
  | x :: rest => x ++ sep ++ join sep rest
  end.

(** Truth value of a [str]: the empty string is false. *)
Definition str_truthy (s : str) : bool :=
  match s with [] => false | _ :: _ => true end.

(** Truth value of an [Optional[str]]: [None] and the empty string are
    false. *)
Definition optstr_truthy (o : option str) : bool :=
  match o with None => false | Some s => str_truthy s end.

(** [a == b] on strings. *)
Definition str_eqb (a b : str) : bool := bool_decide (a = b).

(** ASCII case mapping, the part of [str.upper] / [str.lower] that acts on
    the letters [A-Z] and [a-z]. *)
Definition ascii_upper (c : N) : N :=
  if (97 <=? c) && (c <=? 122) then c - 32 else c.

Definition ascii_lower (c : N) : N :=
  if (65 <=? c) && (c <=? 90) then c + 32 else c.

(** [s.capitalize()] on ASCII text: first character upper-cased, the rest
    lower-cased.  It is only ever applied to the two ASCII task literals of
    [translate] and [beautify]. *)
Definition ascii_capitalize (s : str) : str :=
  match s with
  | [] => []
  | c :: rest => ascii_upper c :: map ascii_lower rest
  end.

(** [fmt % args] for the one conversion the program uses, [%s]. *)
Fixpoint percent_format (fmt : str) (args : list str) : str :=
  match fmt with
  | 37 :: 115 :: rest =>
      match args with
      | a :: args' => a ++ percent_format rest args'
      | [] => 37 :: 115 :: percent_format rest []
      end
  | c :: rest => c :: percent_format rest args
  | [] => []
  end.

(** ** Regular expressions: the fragment of [re] the program uses

    Both patterns are a single character class made of ranges. *)
Definition char_class := list (N * N).

Definition class_matches (cls : char_class) (c : N) : bool :=
  existsb (fun '(lo, hi) => (lo <=? c) && (c <=? hi)) cls.

(** [re.search(cls, s)]: the position of the leftmost match, [None] when
    there is none.  A match object is always truthy. *)
Fixpoint re_search_from (cls : char_class) (s : str) (pos : nat) : option nat :=
  match s with
  | [] => None
  | c :: rest =>
      if class_matches cls c then Some pos
      else re_search_from cls rest (S pos)
  end.

Definition re_search (cls : char_class) (s : str) : option nat :=
  re_search_from cls s 0%nat.

Definition match_truthy (m : option nat) : bool :=
  match m with Some _ => true | None => false end.

(** The class of the pattern written with the escapes u4e00 and u9fff. *)
Definition CJK_CLASS : char_class := [(0x4e00, 0x9fff)].

(** ["[a-zA-Z]"] *)
Definition LETTER_CLASS : char_class := [(97, 122); (65, 90)].

(** ** Python dicts with insertion order *)
Abbreviation pydict := (list (str * str)).

(** [d[k] = v]: overwrite in place, or append a new key. *)
Fixpoint dict_set (d : pydict) (k v : str) : pydict :=
  match d with
  | [] => [(k, v)]
  | (k', v') :: rest =>
      if str_eqb k' k then (k, v) :: rest else (k', v') :: dict_set rest k v
  end.

Fixpoint dict_get (d : pydict) (k : str) : option str :=
  match d with
  | [] => None
  | (k', v') :: rest => if str_eqb k' k then Some v' else dict_get rest k
  end.

(** ** The outside world

    What the program exchanges with its collaborators: the [.env] file read
    by python-dotenv, the process environment, the remote chat-completion
    endpoint and the log. *)

(** A message of a chat-completion request (the two [*MessageParam] typed
    dicts of the openai package share this shape). *)
Module Param.
Record t := Build { role : str; content : str }.
End Param.

(** The part of a chat-completion response the program reads. *)
Module Completion.
Record Message := BuildMessage { content : option str }.
Record Choice := BuildChoice { message : Message }.
Record t := Build { choices : list Choice }.
End Completion.

(** What [client.chat.completions.create] does: it returns a completion or
    raises (timeout, rejected credentials, malformed payload, ...). *)
Inductive reply :=
| Returns (r : Completion.t)
| Raises (err : str).

(** Observable events, in the order they happen. *)
Inductive event :=
| EvLoadDotenv
| EvOpenAI (api_key base_url : str)
| EvCreate (model : str) (messages : list Param.t)
| EvInfo (line : str).

(** [dotenv] is the parsed [.env] file ([None]: no file was found; a key
    bound to [None] has no value in the file).  [openai_rejects] is the
    check the constructor of the openai client makes on its arguments: the
    error it raises for an API key and a base URL it does not accept (a
    malformed URL, for instance), [None] when it accepts them.  [endpoint]
    is the remote service: its reply may depend on everything that happened
    before the request. *)
Record world := World {
  dotenv : option (gmap str (option str));
  environ : gmap str str;
  openai_rejects : str -> str -> option str;
  endpoint : list event -> str -> list Param.t -> reply;
  trace : list event
}.

Definition emit (e : event) (w : world) : world :=
  {| dotenv := dotenv w; environ := environ w;
     openai_rejects := openai_rejects w; endpoint := endpoint w;
     trace := trace w ++ [e] |}.

Definition set_environ (env : gmap str str) (w : world) : world :=
  {| dotenv := dotenv w; environ := env;
     openai_rejects := openai_rejects w; endpoint := endpoint w;
     trace := trace w |}.

(** Number of requests sent to the remote endpoint. *)
Definition is_create (e : event) : bool :=
  match e with EvCreate _ _ => true | _ => false end.

Definition network_calls (tr : list event) : nat :=
  length (List.filter is_create tr).

(** ** Exceptions and the monad of effects *)

Inductive exn :=
| EnvironmentVariableError (msg : str)
| IndexError
| KeyError (key : str)
| APIError (err : str)
| ClientError (err : str).

Inductive result (A : Type) :=
| Ok (a : A)
| Raise (e : exn).
Arguments Ok {A} a.
Arguments Raise {A} e.

Definition M (A : Type) : Type := world -> result A * world.

Definition ret {A} (a : A) : M A := fun w => (Ok a, w).

Definition raise {A} (e : exn) : M A := fun w => (Raise e, w).

Definition bind {A B} (m : M A) (k : A -> M B) : M B :=
  fun w =>
    match m w with
    | (Ok a, w') => k a w'
    | (Raise e, w') => (Raise e, w')
    end.

Declare Scope py_scope.
Delimit Scope py_scope with py.
Notation "x <- m ;; k" := (bind m (fun x => k))
  (at level 100, m at next level, right associativity) : py_scope.
Notation "m ;; k" := (bind m (fun _ => k))
  (at level 100, right associativity) : py_scope.
Local Open Scope py_scope.

(** [lst[i]] *)
Definition list_getitem {A} (l : list A) (i : nat) : M A :=
  match nth_error l i with
  | Some a => ret a
  | None => raise IndexError
  end.

(** [d[k]] *)
Definition dict_getitem (d : pydict) (k : str) : M str :=
  match dict_get d k with
  | Some v => ret v
  | None => raise (KeyError k)
  end.

(** [load_dotenv()] of python-dotenv, with its defaults: every variable of
    the file that has a value and is not yet in the environment is set; the
    result is [True] exactly when the file defines at least one variable. *)
Definition load_dotenv : M bool :=
  fun w =>
    let w := emit EvLoadDotenv w in
    match dotenv w with
    | None => (Ok false, w)
    | Some file =>
        if bool_decide (file = ∅) then (Ok false, w)
        else (Ok true, set_environ (environ w ∪ omap id file) w)
    end.

(** [os.getenv(key, default)] *)
Definition os_getenv (key default : str) : M str :=
  fun w => (Ok (from_option id default (environ w !! key)), w).

(** [OpenAI(api_key=..., base_url=...)]: the constructor raises when it
    does not accept its arguments, and then no client exists; building the
    client sends nothing. *)
Record OpenAI := { api_key : str; base_url : str }.

Definition OpenAI_new (api_key base_url : str) : M OpenAI :=
  fun w =>
    match openai_rejects w api_key base_url with
    | Some err => (Raise (ClientError err), w)
    | None =>
        (Ok {| api_key := api_key; base_url := base_url |},
         emit (EvOpenAI api_key base_url) w)
    end.

(** [client.chat.completions.create(model=..., messages=...)] *)
Definition chat_completions_create (client : OpenAI) (model : str)
    (messages : list Param.t) : M Completion.t :=
  fun w =>
    let w' := emit (EvCreate model messages) w in
    match endpoint w (trace w) model messages with
    | Returns r => (Ok r, w')
    | Raises err => (Raise (APIError err), w')
    end.

(** [logging.info(msg, *args)]: the message is formatted only when there
    are arguments. *)
Definition logging_info (msg : str) (args : list str) : M unit :=
  fun w =>
    let line := match args with [] => msg | _ => percent_format msg args end in
    (Ok tt, emit (EvInfo line) w).

(** The dict comprehension [{var: f(var) for var in vars}]. *)
Fixpoint dict_comprehension (f : str -> M str) (vars : list str)
    (acc : pydict) : M pydict :=
  match vars with
  | [] => ret acc
  | var :: rest =>
      value <- f var ;;
      dict_comprehension f rest (dict_set acc var value)
  end.

(** The instruction pair: a dict with exactly the keys ["system"] and
    ["user"]. *)
Record Prompt := { system : str; user : str }.

(** The result of [argparse]: [content] has at least one word
    ([nargs="+"]); [github] exists in the second variant only and is
    [False] unless [-g] is given. *)
Module Namespace.
Record t := Build {
  content : list str;
  beautify : bool;
  translate : bool;
  github : bool
}.
End Namespace.

(** ** First variant: [src/beauti.py] *)
Module Beauti.

Definition load_env : M pydict :=
  found <- load_dotenv ;;
  if negb found then
    let msg :=
      lit "No .env file found."
      ++ lit "Please create one with the required environment variables." in
    raise (EnvironmentVariableError msg)
  else
    env_vars <- dict_comprehension (fun var => os_getenv var EMPTY)
                  [lit "GLM_API"; lit "API_URL"] [] ;;
    let missing_vars :=
      map fst (List.filter (fun '(var, value) => str_eqb value EMPTY) env_vars) in
    match missing_vars with
    | _ :: _ =>
        let msg :=
          lit "Missing environment variables: " ++ join (lit ", ") missing_vars in
        raise (EnvironmentVariableError msg)
    | [] => ret (dict_set env_vars (lit "model") (lit "glm4"))
    end.

Definition check_language (s : str) : str :=
  if match_truthy (re_search CJK_CLASS s) then lit "Chinese"
  else if match_truthy (re_search LETTER_CLASS s) then lit "English"
  else lit "Unknown".

Record TextTransformer := {
  env_vars : pydict;
  model : str;
  client : OpenAI
}.

Definition __init__ : M TextTransformer :=
  env_vars <- load_env ;;
  model <- dict_getitem env_vars (lit "model") ;;
  api_key <- dict_getitem env_vars (lit "GLM_API") ;;
  base_url <- dict_getitem env_vars (lit "API_URL") ;;
  client <- OpenAI_new api_key base_url ;;
  ret {| env_vars := env_vars; model := model; client := client |}.

Definition _process_text (self : TextTransformer) (prompt : Prompt) : M str :=
  let system_message := Param.Build (lit "system") (system prompt) in
  let user_message := Param.Build (lit "user") (user prompt) in
  response <- chat_completions_create (client self) (model self)
                [system_message; user_message] ;;
  choice <- list_getitem (Completion.choices response) 0 ;;
  let response_text := Completion.content (Completion.message choice) in
  match response_text with
  | Some text => if str_truthy text then ret text else ret (lit "No response.")
  | None => ret (lit "No response.")
  end.

Definition translate (self : TextTransformer) (text : str) : M str :=
  _process_text self
    {| system :=
         lit "You are an expert translator,"
         ++ lit "translate directly without explanation.";
       user :=
         lit "Translate the following Chinese text to English,"
         ++ lit "to improve clarity, conciseness, and coherence,"
         ++ lit "making them match the expression of native speakers."
         ++ NL ++ NL ++ text |}.

Definition beautify (self : TextTransformer) (text : str) : M str :=
  _process_text self
    {| system := lit "You are an expert writer, rewrite the text.";
       user :=
         lit "Beautify the following English text,"
         ++ lit "to improve clarity, conciseness, and coherence,"
         ++ lit "making them match the expression of native speakers. "
         ++ NL ++ NL ++ text |}.

Definition handle_translation (trans : TextTransformer) (text : str) : M unit :=
  if str_eqb (check_language text) (lit "Chinese") then
    eng <- translate trans text ;;
    logging_info (lit "%s") [eng] ;;
    polished <- beautify trans eng ;;
    logging_info (lit "%s") [polished]
  else
    logging_info
      (lit "Please provide Chinese text to translate."
       ++ lit "If want to beauty English, use -b.") [].

Definition handle_beautification (trans : TextTransformer) (text : str) : M unit :=
  if str_eqb (check_language text) (lit "English") then
    polished <- beautify trans text ;;
    logging_info (lit "%s") [polished]
  else
    logging_info
      (lit "Please provide English text to beautify."
       ++ lit "If want to translate Chinese, use -t.") [].

(** [args] is what [parse_arguments()] returned. *)
Definition main (args : Namespace.t) : M unit :=
  let text := join (lit " ") (Namespace.content args) in
  if negb (Namespace.translate args) && negb (Namespace.beautify args) then
    logging_info (lit "Please specify an action. Use -h for help.") []
  else
    trans <- __init__ ;;
    (if Namespace.translate args then handle_translation trans text
     else ret tt) ;;
    (if Namespace.beautify args then handle_beautification trans text
     else ret tt).

End Beauti.

(** ** Second variant: [src/scripts/beauti.py] *)
Module ScriptsBeauti.

Definition load_env : M pydict :=
  found <- load_dotenv ;;
  if negb found then
    let msg :=
      lit "No .env file found."
      ++ lit "Please create one with the required environment variables." in
    raise (EnvironmentVariableError msg)
  else
    env_vars <- dict_comprehension (fun var => os_getenv var EMPTY)
                  [lit "GLM_API"; lit "API_URL"] [] ;;
    let missing_vars :=
      map fst (List.filter (fun '(var, value) => str_eqb value EMPTY) env_vars) in
    match missing_vars with
    | _ :: _ =>
        let msg :=
          lit "Missing environment variables: " ++ join (lit ", ") missing_vars in
        raise (EnvironmentVariableError msg)
    | [] => ret (dict_set env_vars (lit "model") (lit "glm4"))
    end.

Definition check_language (s : str) : str :=
  if match_truthy (re_search CJK_CLASS s) then lit "Chinese"
  else if match_truthy (re_search LETTER_CLASS s) then lit "English"
  else lit "Unknown".

Record TextTransformer := {
  env_vars : pydict;
  model : str;
  client : OpenAI
}.

Definition __init__ : M TextTransformer :=
  env_vars <- load_env ;;
  model <- dict_getitem env_vars (lit "model") ;;
  api_key <- dict_getitem env_vars (lit "GLM_API") ;;
  base_url <- dict_getitem env_vars (lit "API_URL") ;;
  client <- OpenAI_new api_key base_url ;;
  ret {| env_vars := env_vars; model := model; client := client |}.

(** [response.choices and response.choices[0].message.content] is
    evaluated left to right: the subscript is reached only when the list of
    choices is not empty. *)
Definition _process_text (self : TextTransformer) (prompt : Prompt) : M str :=
  let system_message := Param.Build (lit "system") (system prompt) in
  let user_message := Param.Build (lit "user") (user prompt) in
  response <- chat_completions_create (client self) (model self)
                [system_message; user_message] ;;
  match Completion.choices response with
  | [] => ret (lit "No response.")
  | _ :: _ =>
      choice <- list_getitem (Completion.choices response) 0 ;;
      if optstr_truthy (Completion.content (Completion.message choice)) then
        choice <- list_getitem (Completion.choices response) 0 ;;
        ret (from_option id [] (Completion.content (Completion.message choice)))
      else ret (lit "No response.")
  end.

Section CreatePrompt.

(** [str.capitalize], the Python built-in; nothing is assumed about it. *)
Variable capitalize : str -> str.

Definition _create_prompt (role task text : str) (for_git : bool) : Prompt :=
  let system_prompt :=
    if for_git then
      lit "You are an expert " ++ role ++ lit ", "
      ++ lit "especially have experience in writing Github user friendly sentence."
    else lit "You are an expert " ++ role in
  let user_prompt :=
    capitalize task ++ lit " the following text, "
    ++ lit "to improve clarity, conciseness, and coherence, "
    ++ lit "making them match the expression of native speakers."
    ++ NL ++ NL ++ text in
  {| system := system_prompt; user := user_prompt |}.

End CreatePrompt.

(** The two call sites pass ASCII task literals, on which [str.capitalize]
    is [ascii_capitalize]. *)
Definition translate (self : TextTransformer) (text : str) (for_git : bool)
    : M str :=
  let prompt :=
    _create_prompt ascii_capitalize (lit "translator")
      (lit "please translate directly without explanation") text for_git in
  _process_text self prompt.

Definition beautify (self : TextTransformer) (text : str) (for_git : bool)
    : M str :=
  let prompt :=
    _create_prompt ascii_capitalize (lit "writer")
      (lit "please rewrite the text directly without explanation") text for_git in
  _process_text self prompt.

(** The keyword argument [for_git] of the two handlers has a default:
    [None] stands for a call that leaves it out. *)
Definition handle_translation (trans : TextTransformer) (text : str)
    (for_git : option bool) : M unit :=
  let for_git := default true for_git in
  if str_eqb (check_language text) (lit "Chinese") then
    eng <- translate trans text for_git ;;
    logging_info (lit "%s") [eng] ;;
    polished <- beautify trans eng for_git ;;
    logging_info (lit "%s") [polished]
  else
    logging_info
      (lit "Please provide Chinese text to translate."
       ++ lit "If want to beauty English, use -b.") [].

Definition handle_beautification (trans : TextTransformer) (text : str)
    (for_git : option bool) : M unit :=
  let for_git := default true for_git in
  if str_eqb (check_language text) (lit "English") then
    polished <- beautify trans text for_git ;;
    logging_info (lit "%s") [polished]
  else
    logging_info
      (lit "Please provide English text to beautify."
       ++ lit "If want to translate Chinese, use -t.") [].

(** [args] is what [parse_arguments()] returned. *)
Definition main (args : Namespace.t) : M unit :=
  let text := join (lit " ") (Namespace.content args) in
  if negb (Namespace.translate args) && negb (Namespace.beautify args) then
    logging_info (lit "Please specify an action. Use -h for help.") []
  else
    trans <- __init__ ;;
    let for_git := Namespace.github args in
    (if Namespace.translate args then handle_translation trans text (Some for_git)
     else ret tt) ;;
    (if Namespace.beautify args then handle_beautification trans text (Some for_git)
     else ret tt).

End ScriptsBeauti.

(** ** Vocabulary of the specification *)

(** A code point of the CJK Unified Ideographs block, U+4E00 to U+9FFF. *)
Definition is_cjk_ideograph (c : N) : Prop := 0x4e00 <= c /\ c <= 0x9fff.

(** An ASCII letter. *)
Definition is_ascii_letter (c : N) : Prop :=
  (97 <= c /\ c <= 122) \/ (65 <= c /\ c <= 90).

(** [s] contains a code point satisfying [P]. *)
Definition contains (P : N -> Prop) (s : str) : Prop :=
  exists c, In c s /\ P c.

(** The contract of the language detector, for a candidate [detect]. *)
Definition language_contract (detect : str -> str) : Prop :=
  forall s,
    (contains is_cjk_ideograph s -> detect s = lit "Chinese")
    /\ (~ contains is_cjk_ideograph s -> contains is_ascii_letter s ->
        detect s = lit "English")
    /\ (~ contains is_cjk_ideograph s -> ~ contains is_ascii_letter s ->
        detect s = lit "Unknown").

(** The text the transform client hands back for a completion: the content
    of the first choice when there is one and it is not empty, the fixed
    fallback otherwise. *)
Definition reply_text (r : Completion.t) : str :=
  match Completion.choices r with
  | [] => lit "No response."
  | choice :: _ =>
      match Completion.content (Completion.message choice) with
      | Some (c :: rest) => c :: rest
      | _ => lit "No response."
      end
  end.

(** The two messages of a request, as built from an instruction pair. *)
Definition messages_of (p : Prompt) : list Param.t :=
  [Param.Build (lit "system") (system p); Param.Build (lit "user") (user p)].

(** Several events in a row. *)
Definition emits (es : list event) (w : world) : world :=
  fold_left (fun w e => emit e w) es w.

(** [t] ends with [suffix]. *)
Definition ends_with (suffix t : str) : Prop := exists prefix, t = prefix ++ suffix.

(** [name] occurs in [t]. *)
Definition occurs_in (name t : str) : Prop :=
  exists before after, t = before ++ name ++ after.

(** The requests of the second variant's [translate] and [beautify]. *)
Definition translate_messages (text : str) (for_git : bool) : list Param.t :=
  messages_of
    (ScriptsBeauti._create_prompt ascii_capitalize (lit "translator")
       (lit "please translate directly without explanation") text for_git).

Definition beautify_messages (text : str) (for_git : bool) : list Param.t :=
  messages_of
    (ScriptsBeauti._create_prompt ascii_capitalize (lit "writer")
       (lit "please rewrite the text directly without explanation") text for_git).

(** The requests of the first variant's [translate] and [beautify]. *)
Definition beauti_translate_messages (text : str) : list Param.t :=
  [Param.Build (lit "system")
     (lit "You are an expert translator,translate directly without explanation.");
   Param.Build (lit "user")
     (lit "Translate the following Chinese text to English,to improve clarity, conciseness, and coherence,making them match the expression of native speakers."
      ++ NL ++ NL ++ text)].

Definition beauti_beautify_messages (text : str) : list Param.t :=
  [Param.Build (lit "system") (lit "You are an expert writer, rewrite the text.");
   Param.Build (lit "user")
     (lit "Beautify the following English text,to improve clarity, conciseness, and coherence,making them match the expression of native speakers. "
      ++ NL ++ NL ++ text)].

(** The hints the dispatcher logs. *)
Definition USAGE_HINT : str := lit "Please specify an action. Use -h for help.".

Definition TRANSLATE_HINT : str :=
  lit "Please provide Chinese text to translate.If want to beauty English, use -b.".

Definition BEAUTIFY_HINT : str :=
  lit "Please provide English text to beautify.If want to translate Chinese, use -t.".

(** The required configuration names, and what [os.getenv] with the empty default reads
    once the [.env] file [file] has been loaded into [env]. *)
Definition REQUIRED : list str := [lit "GLM_API"; lit "API_URL"].

Definition loaded_environ (env : gmap str str) (file : gmap str (option str))
    : gmap str str :=
  env ∪ omap id file.

Definition setting (env : gmap str str) (name : str) : str :=
  from_option id [] (env !! name).

Definition missing_names (env : gmap str str) : list str :=
  List.filter (fun name => str_eqb (setting env name) []) REQUIRED.

(** The message raised when python-dotenv loads nothing. *)
Definition NO_DOTENV_MESSAGE : str :=
  lit "No .env file found.Please create one with the required environment variables.".

(** The outcome of the configuration loader, said in the words of its
    contract. *)
Definition load_env_outcome (w : world) : result pydict * world :=
  let w0 := emit EvLoadDotenv w in
  match dotenv w with
  | None => (Raise (EnvironmentVariableError NO_DOTENV_MESSAGE), w0)
  | Some file =>
      if bool_decide (file = ∅) then
        (Raise (EnvironmentVariableError NO_DOTENV_MESSAGE), w0)
      else
        let env := loaded_environ (environ w) file in
        let w1 := set_environ env w0 in
        match missing_names env with
        | [] =>
            (Ok [(lit "GLM_API", setting env (lit "GLM_API"));
                 (lit "API_URL", setting env (lit "API_URL"));
                 (lit "model", lit "glm4")], w1)
        | names =>
            (Raise (EnvironmentVariableError
                      (lit "Missing environment variables: "
                       ++ join (lit ", ") names)), w1)
        end
  end.

(** ** Sample inputs *)

(** A remote endpoint that answers every request with no choice at all. *)
Definition no_choice_endpoint (history : list event) (model : str)
    (messages : list Param.t) : reply :=
  Returns (Completion.Build []).

(** A remote endpoint that always answers "Hello". *)
Definition hello_endpoint (history : list event) (model : str)
    (messages : list Param.t) : reply :=
  Returns (Completion.Build
             [Completion.BuildChoice (Completion.BuildMessage (Some (lit "Hello")))]).

Definition sample_client : OpenAI :=
  {| api_key := lit "secret"; base_url := lit "https://example.invalid/v4" |}.

Definition sample_config : pydict :=
  [(lit "GLM_API", lit "secret");
   (lit "API_URL", lit "https://example.invalid/v4");
   (lit "model", lit "glm4")].

Definition sample_beauti : Beauti.TextTransformer :=
  {| Beauti.env_vars := sample_config; Beauti.model := lit "glm4";
     Beauti.client := sample_client |}.

Definition sample_scripts : ScriptsBeauti.TextTransformer :=
  {| ScriptsBeauti.env_vars := sample_config; ScriptsBeauti.model := lit "glm4";
     ScriptsBeauti.client := sample_client |}.

(** A [.env] file with both settings, one with the API key only, and an
    empty process environment. *)
Definition full_dotenv : gmap str (option str) :=
  {[ lit "GLM_API" := Some (lit "secret");
     lit "API_URL" := Some (lit "https://example.invalid/v4") ]}.

Definition url_only_dotenv : gmap str (option str) :=
  {[ lit "API_URL" := Some (lit "https://example.invalid/v4") ]}.

Definition sample_world (file : option (gmap str (option str)))
    (remote : list event -> str -> list Param.t -> reply) : world :=
  {| dotenv := file; environ := ∅; openai_rejects := fun _ _ => None;
     endpoint := remote; trace := [] |}.

(** The same world with a constructor that refuses every base URL. *)
Definition strict_world (file : option (gmap str (option str)))
    (remote : list event -> str -> list Param.t -> reply) : world :=
  {| dotenv := file; environ := ∅;
     openai_rejects := fun _ _ => Some (lit "Invalid URL");
     endpoint := remote; trace := [] |}.

(** A world whose [.env] file exists and defines nothing. *)
Definition empty_dotenv_world : world :=
  sample_world (Some ∅) hello_endpoint.

(** "ni hao" in ideographs. *)
Definition NI_HAO : str := [0x4f60; 0x597d].

(** A remote endpoint that is down. *)
Definition failing_endpoint (history : list event) (model : str)
    (messages : list Param.t) : reply :=
  Raises (lit "timeout").

Definition sample_prompt : Prompt :=
  {| system := lit "You are an expert writer"; user := lit "hello" |}.

(** The completion [hello_endpoint] returns. *)
Definition hello_completion : Completion.t :=
  Completion.Build
    [Completion.BuildChoice (Completion.BuildMessage (Some (lit "Hello")))].

(** The error raised by the configuration loader, whatever its message. *)
Definition is_environment_error (e : exn) : Prop :=
  exists msg, e = EnvironmentVariableError msg.

(** What a request gives back in each variant: the second falls back on
    "No response." when there is no choice, the first raises. *)
Definition scripts_answer (r : reply) : result str :=
  match r with
  | Returns c => Ok (reply_text c)
  | Raises err => Raise (APIError err)
  end.

Definition beauti_answer (r : reply) : result str :=
  match r with
  | Returns c =>
      match Completion.choices c with
      | [] => Raise IndexError
      | _ :: _ => Ok (reply_text c)
      end
  | Raises err => Raise (APIError err)
  end.

(** The course of a translate-then-beautify chain, given how a request is
    answered and which messages each step sends. *)
Definition chain_outcome (answer : reply -> result str)
    (first second : str -> list Param.t) (model text : str) (w : world)
    : result unit * world :=
  let w0 := emit (EvCreate model (first text)) w in
  match answer (endpoint w (trace w) model (first text)) with
  | Raise e => (Raise e, w0)
  | Ok eng =>
      let w1 := emit (EvInfo eng) w0 in
      let w2 := emit (EvCreate model (second eng)) w1 in
      match answer (endpoint w (trace w1) model (second eng)) with
      | Raise e => (Raise e, w2)
      | Ok polished => (Ok tt, emit (EvInfo polished) w2)
      end
  end.

(** The course of a single beautify step. *)
Definition single_outcome (answer : reply -> result str)
    (request : str -> list Param.t) (model text : str) (w : world)
    : result unit * world :=
  let w0 := emit (EvCreate model (request text)) w in
  match answer (endpoint w (trace w) model (request text)) with
  | Raise e => (Raise e, w0)
  | Ok polished => (Ok tt, emit (EvInfo polished) w0)
  end.

(** Number of calls of [logging.info] the program itself has made.  What
    other libraries write to the same log is not an event of the model. *)
Definition is_info (e : event) : bool :=
  match e with EvInfo _ => true | _ => false end.

Definition log_lines (tr : list event) : nat :=
  length (List.filter is_info tr).

(** A remote endpoint that translates once and is down afterwards. *)
Definition flaky_endpoint (history : list event) (model : str)
    (messages : list Param.t) : reply :=
  match history with
  | [] => Returns hello_completion
  | _ :: _ => Raises (lit "timeout")
  end.

(** Calls of [logging.info] a successful run makes: one for the usage hint
    when no action is asked for; otherwise two for a translation of Chinese
    text or one for its hint, plus one (result or hint) for a
    beautification. *)
Definition expected_log_lines (args : Namespace.t) : nat :=
  let text := join (lit " ") (Namespace.content args) in
  if negb (Namespace.translate args) && negb (Namespace.beautify args) then 1%nat
  else
    ((if Namespace.translate args then
        if str_eqb (ScriptsBeauti.check_language text) (lit "Chinese")
        then 2 else 1
      else 0)
     + (if Namespace.beautify args then 1 else 0))%nat.

(** [t.startswith(prefix)] and [name in t], as computations. *)
Fixpoint starts_with (prefix t : str) : bool :=
  match prefix, t with
  | [], _ => true
  | p :: prefix', c :: t' => (p =? c) && starts_with prefix' t'
  | _ :: _, [] => false
  end.

Fixpoint occurs_inb (name t : str) : bool :=
  match t with
  | [] => starts_with name []
  | _ :: t' => starts_with name t || occurs_inb name t'
  end.

(** ** Strings and patterns *)

Lemma re_search_from_truthy cls s pos :
  match_truthy (re_search_from cls s pos) = existsb (class_matches cls) s.
Proof.
  revert pos. induction s as [|c rest IH]; intros pos; simpl.
  - reflexivity.
  - destruct (class_matches cls c); simpl; [reflexivity | apply IH].
Qed.

Lemma re_search_truthy cls s :
  match_truthy (re_search cls s) = true <->
  exists c, In c s /\ class_matches cls c = true.
Proof.
  unfold re_search. rewrite re_search_from_truthy. apply existsb_exists.
Qed.

Lemma cjk_class_matches c :
  class_matches CJK_CLASS c = true <-> is_cjk_ideograph c.
Proof.
  unfold class_matches, CJK_CLASS, is_cjk_ideograph. simpl.
  rewrite orb_false_r, andb_true_iff, !N.leb_le. reflexivity.
Qed.

Lemma letter_class_matches c :
  class_matches LETTER_CLASS c = true <-> is_ascii_letter c.
Proof.
  unfold class_matches, LETTER_CLASS, is_ascii_letter. simpl.
  rewrite orb_false_r, orb_true_iff, !andb_true_iff, !N.leb_le. reflexivity.
Qed.

Lemma search_cjk s :
  match_truthy (re_search CJK_CLASS s) = true <-> contains is_cjk_ideograph s.
Proof.
  rewrite re_search_truthy. unfold contains.
  split; intros [c [Hin Hc]]; exists c; split; auto; now apply cjk_class_matches.
Qed.

Lemma search_letter s :
  match_truthy (re_search LETTER_CLASS s) = true <-> contains is_ascii_letter s.
Proof.
  rewrite re_search_truthy. unfold contains.
  split; intros [c [Hin Hc]]; exists c; split; auto; now apply letter_class_matches.
Qed.

Lemma scripts_check_language_contract :
  language_contract ScriptsBeauti.check_language.
Proof.
  intros s. unfold ScriptsBeauti.check_language.
  destruct (match_truthy (re_search CJK_CLASS s)) eqn:Hc.
  - apply search_cjk in Hc. split; [|split]; intros; [reflexivity | contradiction ..].
  - assert (Hn : ~ contains is_cjk_ideograph s).
    { intros H. apply search_cjk in H. congruence. }
    destruct (match_truthy (re_search LETTER_CLASS s)) eqn:Hl.
    + apply search_letter in Hl.
      split; [|split]; intros; [contradiction | reflexivity | contradiction].
    + assert (Hm : ~ contains is_ascii_letter s).
      { intros H. apply search_letter in H. congruence. }
      split; [|split]; intros; [contradiction .. | reflexivity].
Qed.

Lemma check_language_same s :
  Beauti.check_language s = ScriptsBeauti.check_language s.
Proof. reflexivity. Qed.

(** C2. In both variants [check_language] is a total function on strings
    that answers "Chinese" when the text contains a CJK unified ideograph
    (U+4E00..U+9FFF), otherwise "English" when it contains an ASCII letter,
    otherwise "Unknown"; so mixed text is "Chinese" and the empty string is
    "Unknown". *)
Theorem check_language_spec :
  language_contract Beauti.check_language
  /\ language_contract ScriptsBeauti.check_language
  /\ (forall s latin,
        contains is_cjk_ideograph s -> contains is_ascii_letter latin ->
        Beauti.check_language (s ++ latin) = lit "Chinese"
        /\ ScriptsBeauti.check_language (latin ++ s) = lit "Chinese")
  /\ Beauti.check_language [] = lit "Unknown"
  /\ ScriptsBeauti.check_language [] = lit "Unknown".
Proof.
  split; [|split; [|split; [|split]]].
  - intros s. rewrite check_language_same. apply scripts_check_language_contract.
  - apply scripts_check_language_contract.
  - intros s latin [c [Hin Hc]] _. split.
    + rewrite check_language_same. apply scripts_check_language_contract.
      exists c. split; [apply in_or_app; now left | exact Hc].
    + apply scripts_check_language_contract.
      exists c. split; [apply in_or_app; now right | exact Hc].
  - reflexivity.
  - reflexivity.
Qed.

(** The detector on "ni hao" written in ideographs followed by "hi". *)
Lemma check_language_spec_witness :
  ScriptsBeauti.check_language [0x4f60; 0x597d; 104; 105] = lit "Chinese"
  /\ Beauti.check_language (lit "hi there") = lit "English"
  /\ Beauti.check_language (lit "12 + 30 = 42") = lit "Unknown".
Proof.
  destruct check_language_spec as [H1 [H2 _]].
  split; [|split].
  - apply H2. exists 0x4f60. split; [now left | unfold is_cjk_ideograph; lia].
  - apply H1.
    + intros [c [Hin Hc]]. unfold is_cjk_ideograph in Hc. simpl in Hin.
      repeat (destruct Hin as [<- | Hin]; [lia |]). exact Hin.
    + exists 104. split; [now left | unfold is_ascii_letter; lia].
  - apply H1.
    + intros [c [Hin Hc]]. unfold is_cjk_ideograph in Hc. simpl in Hin.
      repeat (destruct Hin as [<- | Hin]; [lia |]). exact Hin.
    + intros [c [Hin Hc]]. unfold is_ascii_letter in Hc. simpl in Hin.
      repeat (destruct Hin as [<- | Hin]; [lia |]). exact Hin.
Defined.

(** ** The model on concrete inputs *)

Example join_words :
  join (lit " ") [lit "hello"; lit "big"; lit "world"] = lit "hello big world".
Proof. reflexivity. Qed.

Example capitalize_task :
  ascii_capitalize (lit "please translate directly without explanation") =
  lit "Please translate directly without explanation".
Proof. reflexivity. Qed.

Example percent_format_two :
  percent_format (lit "%s and %s") [lit "a"; lit "b"] = lit "a and b".
Proof. reflexivity. Qed.

Example translator_prompt_for_git :
  ScriptsBeauti._create_prompt ascii_capitalize (lit "translator")
    (lit "please translate directly without explanation") NI_HAO true =
  {| system :=
       lit "You are an expert translator, especially have experience in writing Github user friendly sentence.";
     user :=
       lit "Please translate directly without explanation the following text, to improve clarity, conciseness, and coherence, making them match the expression of native speakers."
       ++ [10; 10; 0x4f60; 0x597d] |}.
Proof. reflexivity. Qed.

Example mixed_text_is_chinese :
  ScriptsBeauti.check_language (lit "hello " ++ NI_HAO) = lit "Chinese".
Proof. reflexivity. Qed.

Example digits_are_unknown :
  Beauti.check_language (lit "2024-11-04") = lit "Unknown".
Proof. reflexivity. Qed.

Example load_env_names_every_missing_variable :
  fst (ScriptsBeauti.load_env
         (sample_world (Some {[ lit "OTHER" := Some (lit "x") ]}) hello_endpoint)) =
  Raise (EnvironmentVariableError
           (lit "Missing environment variables: GLM_API, API_URL")).
Proof. vm_compute. reflexivity. Qed.

Example main_translates_then_beautifies :
  ScriptsBeauti.main (Namespace.Build [NI_HAO] false true true)
    (sample_world (Some full_dotenv) hello_endpoint) =
  (Ok tt,
   set_environ
     {[ lit "GLM_API" := lit "secret";
        lit "API_URL" := lit "https://example.invalid/v4" ]}
     (emits [EvLoadDotenv;
             EvOpenAI (lit "secret") (lit "https://example.invalid/v4");
             EvCreate (lit "glm4") (translate_messages NI_HAO true);
             EvInfo (lit "Hello");
             EvCreate (lit "glm4") (beautify_messages (lit "Hello") true);
             EvInfo (lit "Hello")]
        (sample_world (Some full_dotenv) hello_endpoint))).
Proof. vm_compute. reflexivity. Qed.

(** ** The prompt builder *)

(** The clause added to the system instruction under the style flag. *)
Lemma system_prompt_for_git capitalize role task text :
  system (ScriptsBeauti._create_prompt capitalize role task text true) =
  system (ScriptsBeauti._create_prompt capitalize role task text false)
  ++ lit ", especially have experience in writing Github user friendly sentence.".
Proof.
  unfold ScriptsBeauti._create_prompt. cbn [system].
  rewrite <- !app_assoc. reflexivity.
Qed.

Lemma system_prompt_differs capitalize role task text :
  system (ScriptsBeauti._create_prompt capitalize role task text true) <>
  system (ScriptsBeauti._create_prompt capitalize role task text false).
Proof.
  rewrite system_prompt_for_git. intros H.
  apply (f_equal (@length N)) in H. rewrite length_app in H.
  simpl in H. lia.
Qed.

(** C6. The [system] field is "You are an expert {role}" without the style
    flag; with it the same text is extended by the clause about GitHub
    friendly writing, so the two differ for every role. *)
Theorem create_prompt_system capitalize role task text :
  system (ScriptsBeauti._create_prompt capitalize role task text false) =
    lit "You are an expert " ++ role
  /\ system (ScriptsBeauti._create_prompt capitalize role task text true) =
    (lit "You are an expert " ++ role)
    ++ lit ", especially have experience in writing Github user friendly sentence."
  /\ system (ScriptsBeauti._create_prompt capitalize role task text true) <>
     system (ScriptsBeauti._create_prompt capitalize role task text false).
Proof.
  split; [reflexivity | split].
  - apply system_prompt_for_git.
  - apply system_prompt_differs.
Qed.

Lemma create_prompt_user_suffix capitalize role task text for_git :
  ends_with (NL ++ NL ++ text)
    (user (ScriptsBeauti._create_prompt capitalize role task text for_git)).
Proof.
  unfold ScriptsBeauti._create_prompt. cbn [user].
  eexists. rewrite !app_assoc. reflexivity.
Qed.

(** ** The transform client *)

Lemma scripts_process_text_run self p w :
  ScriptsBeauti._process_text self p w =
  (match endpoint w (trace w) (ScriptsBeauti.model self) (messages_of p) with
   | Returns r => Ok (reply_text r)
   | Raises err => Raise (APIError err)
   end,
   emit (EvCreate (ScriptsBeauti.model self) (messages_of p)) w).
Proof.
  unfold ScriptsBeauti._process_text, bind, chat_completions_create, messages_of.
  destruct (endpoint w (trace w) _ _) as [[choices] | err]; [|reflexivity].
  unfold reply_text. simpl.
  destruct choices as [|[[[[|c rest]|]]] more]; reflexivity.
Qed.

Lemma beauti_process_text_run self p w :
  Beauti._process_text self p w =
  (match endpoint w (trace w) (Beauti.model self) (messages_of p) with
   | Returns r =>
       match Completion.choices r with
       | [] => Raise IndexError
       | _ :: _ => Ok (reply_text r)
       end
   | Raises err => Raise (APIError err)
   end,
   emit (EvCreate (Beauti.model self) (messages_of p)) w).
Proof.
  unfold Beauti._process_text, bind, chat_completions_create, messages_of.
  destruct (endpoint w (trace w) _ _) as [[choices] | err]; [|reflexivity].
  unfold reply_text. simpl.
  destruct choices as [|[[[[|c rest]|]]] more]; reflexivity.
Qed.

Lemma trace_emit e w : trace (emit e w) = trace w ++ [e].
Proof. reflexivity. Qed.

Lemma trace_emits es w : trace (emits es w) = trace w ++ es.
Proof.
  revert w. induction es as [|e es IH]; intros w; simpl.
  - now rewrite app_nil_r.
  - unfold emits in IH. rewrite IH, trace_emit, <- app_assoc. reflexivity.
Qed.

(** The instruction pairs of the first variant, as written inline in its
    [translate] and [beautify]. *)
Lemma beauti_translate_request self text w :
  exists sys usr,
    snd (Beauti.translate self text w) =
      emit (EvCreate (Beauti.model self)
              [Param.Build (lit "system") sys; Param.Build (lit "user") usr]) w
    /\ ends_with (NL ++ NL ++ text) usr.
Proof.
  unfold Beauti.translate. rewrite beauti_process_text_run.
  unfold messages_of. cbn [snd system user].
  eexists _, _. split; [reflexivity |].
  exists (lit "Translate the following Chinese text to English,"
          ++ lit "to improve clarity, conciseness, and coherence,"
          ++ lit "making them match the expression of native speakers.").
  rewrite <- !app_assoc. reflexivity.
Qed.

Lemma beauti_beautify_request self text w :
  exists sys usr,
    snd (Beauti.beautify self text w) =
      emit (EvCreate (Beauti.model self)
              [Param.Build (lit "system") sys; Param.Build (lit "user") usr]) w
    /\ ends_with (NL ++ NL ++ text) usr.
Proof.
  unfold Beauti.beautify. rewrite beauti_process_text_run.
  unfold messages_of. cbn [snd system user].
  eexists _, _. split; [reflexivity |].
  exists (lit "Beautify the following English text,"
          ++ lit "to improve clarity, conciseness, and coherence,"
          ++ lit "making them match the expression of native speakers. ").
  rewrite <- !app_assoc. reflexivity.
Qed.

(** C5. The [user] field built by [_create_prompt] ends with a blank-line
    break followed by the subject text, whatever the text (empty or long),
    the role, the task and the style flag; the same holds for the requests
    the second variant's [translate] and [beautify] send, and for the
    instruction pairs the first variant writes inline. *)
Theorem user_prompt_ends_with_text :
  (forall capitalize role task text for_git,
     ends_with (NL ++ NL ++ text)
       (user (ScriptsBeauti._create_prompt capitalize role task text for_git)))
  /\ (forall self text for_git w,
        exists sys usr,
          snd (ScriptsBeauti.translate self text for_git w) =
            emit (EvCreate (ScriptsBeauti.model self)
                    [Param.Build (lit "system") sys; Param.Build (lit "user") usr]) w
          /\ ends_with (NL ++ NL ++ text) usr)
  /\ (forall self text for_git w,
        exists sys usr,
          snd (ScriptsBeauti.beautify self text for_git w) =
            emit (EvCreate (ScriptsBeauti.model self)
                    [Param.Build (lit "system") sys; Param.Build (lit "user") usr]) w
          /\ ends_with (NL ++ NL ++ text) usr)
  /\ (forall self text w,
        exists sys usr,
          snd (Beauti.translate self text w) =
            emit (EvCreate (Beauti.model self)
                    [Param.Build (lit "system") sys; Param.Build (lit "user") usr]) w
          /\ ends_with (NL ++ NL ++ text) usr)
  /\ (forall self text w,
        exists sys usr,
          snd (Beauti.beautify self text w) =
            emit (EvCreate (Beauti.model self)
                    [Param.Build (lit "system") sys; Param.Build (lit "user") usr]) w
          /\ ends_with (NL ++ NL ++ text) usr).
Proof.
  split; [|split; [|split; [|split]]].
  - apply create_prompt_user_suffix.
  - intros self text for_git w. unfold ScriptsBeauti.translate.
    rewrite scripts_process_text_run. unfold messages_of. cbn [snd].
    eexists _, _. split; [reflexivity | apply create_prompt_user_suffix].
  - intros self text for_git w. unfold ScriptsBeauti.beautify.
    rewrite scripts_process_text_run. unfold messages_of. cbn [snd].
    eexists _, _. split; [reflexivity | apply create_prompt_user_suffix].
  - apply beauti_translate_request.
  - apply beauti_beautify_request.
Qed.

Lemma reply_text_cases r :
  (Completion.choices r = [] -> reply_text r = lit "No response.")
  /\ (forall choice more text,
        Completion.choices r = choice :: more ->
        Completion.content (Completion.message choice) = Some text ->
        text <> [] -> reply_text r = text)
  /\ (forall choice more,
        Completion.choices r = choice :: more ->
        Completion.content (Completion.message choice) = None
        \/ Completion.content (Completion.message choice) = Some [] ->
        reply_text r = lit "No response.").
Proof.
  unfold reply_text. split; [|split].
  - intros ->. reflexivity.
  - intros choice more text -> -> Hne. destruct text; [contradiction | reflexivity].
  - intros choice more -> [-> | ->]; reflexivity.
Qed.

(** The second variant's [_process_text] meets the contract of the
    dispatch operation on every completion the endpoint returns: it sends
    one request with the system and the user message, and hands back the
    first choice's content when there is one and it is not empty, the
    fallback "No response." otherwise (no choice, no content, empty
    content). *)
Theorem scripts_process_text_contract self p w r :
  endpoint w (trace w) (ScriptsBeauti.model self) (messages_of p) = Returns r ->
  ScriptsBeauti._process_text self p w =
    (Ok (reply_text r), emit (EvCreate (ScriptsBeauti.model self) (messages_of p)) w)
  /\ (Completion.choices r = [] -> reply_text r = lit "No response.")
  /\ (forall choice more text,
        Completion.choices r = choice :: more ->
        Completion.content (Completion.message choice) = Some text ->
        text <> [] -> reply_text r = text)
  /\ (forall choice more,
        Completion.choices r = choice :: more ->
        Completion.content (Completion.message choice) = None
        \/ Completion.content (Completion.message choice) = Some [] ->
        reply_text r = lit "No response.").
Proof.
  intros H. split; [|apply reply_text_cases].
  rewrite scripts_process_text_run, H. reflexivity.
Qed.

Lemma scripts_process_text_contract_witness :
  fst (ScriptsBeauti._process_text sample_scripts
         {| system := lit "You are an expert writer"; user := lit "hello" |}
         (sample_world None hello_endpoint)) = Ok (lit "Hello").
Proof.
  pose (r := Completion.Build
               [Completion.BuildChoice (Completion.BuildMessage (Some (lit "Hello")))]).
  destruct (scripts_process_text_contract sample_scripts
              {| system := lit "You are an expert writer"; user := lit "hello" |}
              (sample_world None hello_endpoint) r eq_refl) as [Hrun _].
  rewrite Hrun. reflexivity.
Defined.

(** C1, at the input that separates the two variants.  When the endpoint
    returns a completion with an empty list of choices, the first variant's
    [_process_text] raises [IndexError] at [response.choices[0]], whereas
    the second variant returns the fallback "No response.". *)
Theorem process_text_empty_choices self1 self2 p w :
  endpoint w (trace w) (Beauti.model self1) (messages_of p) =
    Returns (Completion.Build []) ->
  endpoint w (trace w) (ScriptsBeauti.model self2) (messages_of p) =
    Returns (Completion.Build []) ->
  fst (Beauti._process_text self1 p w) = Raise IndexError
  /\ fst (ScriptsBeauti._process_text self2 p w) = Ok (lit "No response.").
Proof.
  intros H1 H2.
  rewrite beauti_process_text_run, scripts_process_text_run, H1, H2.
  split; reflexivity.
Qed.

Lemma process_text_empty_choices_witness :
  fst (Beauti._process_text sample_beauti
         {| system := lit "You are an expert writer, rewrite the text.";
            user := lit "hello" |}
         (sample_world None no_choice_endpoint)) = Raise IndexError
  /\ fst (ScriptsBeauti._process_text sample_scripts
            {| system := lit "You are an expert writer, rewrite the text.";
               user := lit "hello" |}
            (sample_world None no_choice_endpoint)) = Ok (lit "No response.").
Proof.
  apply process_text_empty_choices; reflexivity.
Defined.

(** ** The configuration loader *)

Lemma scripts_load_env_run w :
  ScriptsBeauti.load_env w = load_env_outcome w.
Proof.
  unfold ScriptsBeauti.load_env, load_env_outcome, bind, load_dotenv.
  cbn [dotenv emit].
  destruct (dotenv w) as [file|]; [|reflexivity].
  destruct (bool_decide (file = ∅)); [reflexivity|].
  cbn [negb]. unfold dict_comprehension, bind, os_getenv, ret.
  cbn [environ set_environ emit].
  change (environ w ∪ omap id file) with (loaded_environ (environ w) file).
  unfold missing_names, REQUIRED, setting. cbn [List.filter].
  unfold EMPTY.
  generalize (from_option id [] (loaded_environ (environ w) file !! lit "GLM_API")).
  generalize (from_option id [] (loaded_environ (environ w) file !! lit "API_URL")).
  intros url key. destruct key, url; reflexivity.
Qed.

Lemma load_env_same w : Beauti.load_env w = ScriptsBeauti.load_env w.
Proof. reflexivity. Qed.

Lemma occurs_in_join name names sep :
  In name names -> occurs_in name (join sep names).
Proof.
  induction names as [|x rest IH]; intros Hin; [contradiction|].
  destruct Hin as [-> | Hin].
  - destruct rest as [|y rest'].
    + exists [], []. simpl. now rewrite app_nil_r.
    + exists [], (sep ++ join sep (y :: rest')). reflexivity.
  - destruct (IH Hin) as [before [after Heq]].
    destruct rest as [|y rest']; [contradiction|].
    exists (x ++ sep ++ before), after.
    change (join sep (x :: y :: rest')) with (x ++ sep ++ join sep (y :: rest')).
    rewrite Heq, <- !app_assoc. reflexivity.
Qed.

Lemma occurs_in_app_r prefix name t :
  occurs_in name t -> occurs_in name (prefix ++ t).
Proof.
  intros [before [after ->]]. exists (prefix ++ before), after.
  now rewrite <- app_assoc.
Qed.

Lemma missing_names_spec env name :
  In name (missing_names env) <-> In name REQUIRED /\ setting env name = [].
Proof.
  unfold missing_names. rewrite filter_In. unfold str_eqb.
  rewrite bool_decide_eq_true. reflexivity.
Qed.

Lemma starts_with_app name after : starts_with name (name ++ after) = true.
Proof.
  induction name as [|c name IH]; simpl; [reflexivity|].
  now rewrite N.eqb_refl, IH.
Qed.

Lemma occurs_inb_complete name t : occurs_in name t -> occurs_inb name t = true.
Proof.
  intros [before [after ->]]. induction before as [|c before IH].
  - simpl. destruct (name ++ after) eqn:E.
    + destruct name; [reflexivity | discriminate E].
    + simpl. rewrite <- E, starts_with_app. reflexivity.
  - change ((c :: before) ++ name ++ after) with (c :: (before ++ name ++ after)).
    simpl. rewrite IH. apply orb_true_r.
Qed.

(** C4, as the code has it.  In both variants [load_env] raises
    [EnvironmentVariableError] (the specification's ConfigurationError) with
    the "No .env file found" message whenever [load_dotenv] loads nothing:
    when no [.env] file is found, and also when the file exists but defines
    no variable.  Once a file that defines a variable is loaded, if a
    required value (GLM_API, API_URL) is missing or empty it raises that
    error with a message in which every missing name occurs; otherwise it
    returns the mapping of the two values and the model name "glm4", both
    values non-empty. *)
Theorem load_env_contract w :
  Beauti.load_env w = ScriptsBeauti.load_env w
  /\ (dotenv w = None \/ dotenv w = Some ∅ ->
      ScriptsBeauti.load_env w =
        (Raise (EnvironmentVariableError NO_DOTENV_MESSAGE), emit EvLoadDotenv w))
  /\ (forall file,
        dotenv w = Some file -> file <> ∅ ->
        let env := loaded_environ (environ w) file in
        (missing_names env <> [] ->
         exists msg,
           fst (ScriptsBeauti.load_env w) = Raise (EnvironmentVariableError msg)
           /\ forall name,
                In name REQUIRED -> setting env name = [] -> occurs_in name msg)
        /\ (missing_names env = [] ->
            fst (ScriptsBeauti.load_env w) =
              Ok [(lit "GLM_API", setting env (lit "GLM_API"));
                  (lit "API_URL", setting env (lit "API_URL"));
                  (lit "model", lit "glm4")]
            /\ forall name, In name REQUIRED -> setting env name <> [])).
Proof.
  split; [reflexivity | split].
  - intros Hnone. rewrite scripts_load_env_run. unfold load_env_outcome.
    destruct Hnone as [-> | ->]; reflexivity.
  - intros file Hfile Hne env. rewrite scripts_load_env_run.
    unfold load_env_outcome. rewrite Hfile.
    rewrite bool_decide_eq_false_2 by exact Hne.
    fold env. cbv zeta. split.
    + intros Hmiss.
      destruct (missing_names env) as [|n names] eqn:Hnames; [contradiction|].
      eexists. split; [reflexivity|].
      intros name Hreq Hempty. apply occurs_in_app_r, occurs_in_join.
      rewrite <- Hnames. apply missing_names_spec. auto.
    + intros Hnone. rewrite Hnone. split; [reflexivity|].
      intros name Hreq Hempty.
      assert (Hin : In name (missing_names env))
        by (apply missing_names_spec; auto).
      rewrite Hnone in Hin. exact Hin.
Qed.

(** C4 as stated fails on a [.env] file that exists and defines nothing:
    GLM_API is missing, yet the error raised is the "No .env file found"
    one, whose message does not name GLM_API. *)
Lemma load_env_empty_dotenv_counterexample :
  dotenv empty_dotenv_world = Some ∅
  /\ setting (loaded_environ (environ empty_dotenv_world) ∅) (lit "GLM_API") = []
  /\ fst (ScriptsBeauti.load_env empty_dotenv_world) =
       Raise (EnvironmentVariableError NO_DOTENV_MESSAGE)
  /\ fst (Beauti.load_env empty_dotenv_world) =
       Raise (EnvironmentVariableError NO_DOTENV_MESSAGE)
  /\ ~ occurs_in (lit "GLM_API") NO_DOTENV_MESSAGE.
Proof.
  split; [reflexivity|]. split; [vm_compute; reflexivity|].
  split; [vm_compute; reflexivity|]. split; [vm_compute; reflexivity|].
  intros H. apply occurs_inb_complete in H. vm_compute in H. discriminate H.
Qed.

Lemma load_env_contract_witness :
  ScriptsBeauti.load_env (sample_world None hello_endpoint) =
    (Raise (EnvironmentVariableError NO_DOTENV_MESSAGE),
     emit EvLoadDotenv (sample_world None hello_endpoint))
  /\ (exists msg,
        fst (ScriptsBeauti.load_env
               (sample_world (Some url_only_dotenv) hello_endpoint)) =
          Raise (EnvironmentVariableError msg)
        /\ occurs_in (lit "GLM_API") msg)
  /\ fst (ScriptsBeauti.load_env (sample_world (Some full_dotenv) hello_endpoint)) =
       Ok sample_config.
Proof.
  split; [|split].
  - apply (load_env_contract (sample_world None hello_endpoint)). now left.
  - destruct (load_env_contract
                (sample_world (Some url_only_dotenv) hello_endpoint))
      as (_ & _ & H).
    assert (Hne : url_only_dotenv <> ∅).
    { intros E. apply (f_equal (fun m => m !! lit "API_URL")) in E.
      vm_compute in E. discriminate E. }
    destruct (H url_only_dotenv eq_refl Hne) as [Hmissing _].
    destruct Hmissing as [msg [Hmsg Hocc]].
    { vm_compute. discriminate. }
    exists msg. split; [exact Hmsg|].
    apply Hocc; [now left | vm_compute; reflexivity].
  - destruct (load_env_contract
                (sample_world (Some full_dotenv) hello_endpoint))
      as (_ & _ & H).
    assert (Hne : full_dotenv <> ∅).
    { intros E. apply (f_equal (fun m => m !! lit "API_URL")) in E.
      vm_compute in E. discriminate E. }
    destruct (H full_dotenv eq_refl Hne) as [_ Hfull].
    destruct Hfull as [Hok _]; [vm_compute; reflexivity|].
    rewrite Hok. vm_compute. reflexivity.
Defined.

(** ** The dispatcher *)

Lemma percent_format_s x : percent_format (lit "%s") [x] = x.
Proof. simpl. apply app_nil_r. Qed.

Lemma network_calls_app tr es :
  network_calls (tr ++ es) = (network_calls tr + network_calls es)%nat.
Proof. unfold network_calls. now rewrite List.filter_app, length_app. Qed.

Lemma beauti_translate_run self text w :
  Beauti.translate self text w =
  (match endpoint w (trace w) (Beauti.model self) (beauti_translate_messages text) with
   | Returns r =>
       match Completion.choices r with
       | [] => Raise IndexError
       | _ :: _ => Ok (reply_text r)
       end
   | Raises err => Raise (APIError err)
   end,
   emit (EvCreate (Beauti.model self) (beauti_translate_messages text)) w).
Proof. unfold Beauti.translate. now rewrite beauti_process_text_run. Qed.

Lemma beauti_beautify_run self text w :
  Beauti.beautify self text w =
  (match endpoint w (trace w) (Beauti.model self) (beauti_beautify_messages text) with
   | Returns r =>
       match Completion.choices r with
       | [] => Raise IndexError
       | _ :: _ => Ok (reply_text r)
       end
   | Raises err => Raise (APIError err)
   end,
   emit (EvCreate (Beauti.model self) (beauti_beautify_messages text)) w).
Proof. unfold Beauti.beautify. now rewrite beauti_process_text_run. Qed.

Lemma scripts_translate_run self text for_git w :
  ScriptsBeauti.translate self text for_git w =
  (match endpoint w (trace w) (ScriptsBeauti.model self)
           (translate_messages text for_git) with
   | Returns r => Ok (reply_text r)
   | Raises err => Raise (APIError err)
   end,
   emit (EvCreate (ScriptsBeauti.model self) (translate_messages text for_git)) w).
Proof. unfold ScriptsBeauti.translate. now rewrite scripts_process_text_run. Qed.

Lemma scripts_beautify_run self text for_git w :
  ScriptsBeauti.beautify self text for_git w =
  (match endpoint w (trace w) (ScriptsBeauti.model self)
           (beautify_messages text for_git) with
   | Returns r => Ok (reply_text r)
   | Raises err => Raise (APIError err)
   end,
   emit (EvCreate (ScriptsBeauti.model self) (beautify_messages text for_git)) w).
Proof. unfold ScriptsBeauti.beautify. now rewrite scripts_process_text_run. Qed.

Lemma scripts_handle_translation_other trans text for_git w :
  ScriptsBeauti.check_language text <> lit "Chinese" ->
  ScriptsBeauti.handle_translation trans text for_git w =
    (Ok tt, emit (EvInfo TRANSLATE_HINT) w).
Proof.
  intros Hlang. unfold ScriptsBeauti.handle_translation, str_eqb.
  rewrite bool_decide_eq_false_2 by exact Hlang. reflexivity.
Qed.

Lemma scripts_handle_translation_chinese trans text for_git w r1 r2 :
  let flag := default true for_git in
  let model := ScriptsBeauti.model trans in
  let eng := reply_text r1 in
  let w1 := emits [EvCreate model (translate_messages text flag); EvInfo eng] w in
  ScriptsBeauti.check_language text = lit "Chinese" ->
  endpoint w (trace w) model (translate_messages text flag) = Returns r1 ->
  endpoint w (trace w1) model (beautify_messages eng flag) = Returns r2 ->
  ScriptsBeauti.handle_translation trans text for_git w =
    (Ok tt,
     emits [EvCreate model (beautify_messages eng flag); EvInfo (reply_text r2)] w1).
Proof.
  intros flag model eng w1 Hlang H1 H2.
  unfold ScriptsBeauti.handle_translation, str_eqb.
  rewrite bool_decide_eq_true_2 by exact Hlang.
  fold flag. unfold bind at 1. rewrite scripts_translate_run.
  fold model. rewrite H1. fold eng.
  unfold bind at 1. unfold logging_info at 1. rewrite percent_format_s.
  unfold bind at 1. rewrite scripts_beautify_run.
  fold model. cbn [endpoint emit trace].
  unfold w1, emits in H2. cbn [fold_left emit trace] in H2. rewrite H2.
  unfold logging_info. rewrite percent_format_s. reflexivity.
Qed.

Lemma beauti_handle_translation_other trans text w :
  Beauti.check_language text <> lit "Chinese" ->
  Beauti.handle_translation trans text w = (Ok tt, emit (EvInfo TRANSLATE_HINT) w).
Proof.
  intros Hlang. unfold Beauti.handle_translation, str_eqb.
  rewrite bool_decide_eq_false_2 by exact Hlang. reflexivity.
Qed.

Lemma beauti_handle_translation_chinese trans text w r1 r2 :
  let model := Beauti.model trans in
  let eng := reply_text r1 in
  let w1 := emits [EvCreate model (beauti_translate_messages text); EvInfo eng] w in
  Beauti.check_language text = lit "Chinese" ->
  endpoint w (trace w) model (beauti_translate_messages text) = Returns r1 ->
  Completion.choices r1 <> [] ->
  endpoint w (trace w1) model (beauti_beautify_messages eng) = Returns r2 ->
  Completion.choices r2 <> [] ->
  Beauti.handle_translation trans text w =
    (Ok tt,
     emits [EvCreate model (beauti_beautify_messages eng); EvInfo (reply_text r2)] w1).
Proof.
  intros model eng w1 Hlang H1 Hc1 H2 Hc2.
  unfold Beauti.handle_translation, str_eqb.
  rewrite bool_decide_eq_true_2 by exact Hlang.
  unfold bind at 1. rewrite beauti_translate_run.
  fold model. rewrite H1.
  destruct (Completion.choices r1) as [|c1 more1] eqn:E1; [contradiction|].
  fold eng.
  unfold bind at 1. unfold logging_info at 1. rewrite percent_format_s.
  unfold bind at 1. rewrite beauti_beautify_run.
  fold model. cbn [endpoint emit trace].
  unfold w1, emits in H2. cbn [fold_left emit trace] in H2. rewrite H2.
  destruct (Completion.choices r2) as [|c2 more2] eqn:E2; [contradiction|].
  unfold logging_info. rewrite percent_format_s. reflexivity.
Qed.

(** C3. [handle_translation] on text detected as Chinese sends the
    translate request for the input, logs the reply, sends the beautify
    request for that reply with the same style flag, and logs the second
    reply, in this order; on any other text it only logs the corrective
    hint and sends nothing.  The first variant does the same without a
    style flag, as long as each completion has a choice. *)
Theorem handle_translation_flow :
  (forall trans text for_git w,
     ScriptsBeauti.check_language text <> lit "Chinese" ->
     ScriptsBeauti.handle_translation trans text for_git w =
       (Ok tt, emit (EvInfo TRANSLATE_HINT) w)
     /\ network_calls (trace (emit (EvInfo TRANSLATE_HINT) w)) =
        network_calls (trace w))
  /\ (forall trans text for_git w r1 r2,
        let flag := default true for_git in
        let model := ScriptsBeauti.model trans in
        let eng := reply_text r1 in
        let w1 := emits [EvCreate model (translate_messages text flag); EvInfo eng] w in
        ScriptsBeauti.check_language text = lit "Chinese" ->
        endpoint w (trace w) model (translate_messages text flag) = Returns r1 ->
        endpoint w (trace w1) model (beautify_messages eng flag) = Returns r2 ->
        ScriptsBeauti.handle_translation trans text for_git w =
          (Ok tt,
           emits [EvCreate model (beautify_messages eng flag);
                  EvInfo (reply_text r2)] w1)
        /\ trace (snd (ScriptsBeauti.handle_translation trans text for_git w)) =
           trace w ++ [EvCreate model (translate_messages text flag);
                       EvInfo eng;
                       EvCreate model (beautify_messages eng flag);
                       EvInfo (reply_text r2)])
  /\ (forall trans text w,
        Beauti.check_language text <> lit "Chinese" ->
        Beauti.handle_translation trans text w =
          (Ok tt, emit (EvInfo TRANSLATE_HINT) w))
  /\ (forall trans text w r1 r2,
        let model := Beauti.model trans in
        let eng := reply_text r1 in
        let w1 := emits [EvCreate model (beauti_translate_messages text); EvInfo eng] w in
        Beauti.check_language text = lit "Chinese" ->
        endpoint w (trace w) model (beauti_translate_messages text) = Returns r1 ->
        Completion.choices r1 <> [] ->
        endpoint w (trace w1) model (beauti_beautify_messages eng) = Returns r2 ->
        Completion.choices r2 <> [] ->
        Beauti.handle_translation trans text w =
          (Ok tt,
           emits [EvCreate model (beauti_beautify_messages eng);
                  EvInfo (reply_text r2)] w1)).
Proof.
  split; [|split; [|split]].
  - intros trans text for_git w Hlang. split.
    + now apply scripts_handle_translation_other.
    + rewrite trace_emit, network_calls_app. apply Nat.add_0_r.
  - intros trans text for_git w r1 r2 flag model eng w1 Hlang H1 H2.
    rewrite (scripts_handle_translation_chinese trans text for_git w r1 r2 Hlang H1 H2).
    split; [reflexivity|].
    cbn [snd]. subst w1. rewrite !trace_emits, <- app_assoc.
    reflexivity.
  - intros trans text w Hlang. now apply beauti_handle_translation_other.
  - intros trans text w r1 r2 model eng w1 Hlang H1 Hc1 H2 Hc2.
    now apply beauti_handle_translation_chinese.
Qed.

(** The translate-then-beautify chain on "ni hao", against an endpoint that
    always answers "Hello". *)
Lemma handle_translation_flow_witness :
  trace (snd (ScriptsBeauti.handle_translation sample_scripts NI_HAO (Some false)
                (sample_world None hello_endpoint))) =
    [EvCreate (lit "glm4") (translate_messages NI_HAO false);
     EvInfo (lit "Hello");
     EvCreate (lit "glm4") (beautify_messages (lit "Hello") false);
     EvInfo (lit "Hello")]
  /\ ScriptsBeauti.handle_translation sample_scripts (lit "hello") (Some false)
       (sample_world None hello_endpoint) =
     (Ok tt, emit (EvInfo TRANSLATE_HINT) (sample_world None hello_endpoint)).
Proof.
  destruct handle_translation_flow as (Hother & Hchinese & _).
  split.
  - pose (r := Completion.Build
                 [Completion.BuildChoice (Completion.BuildMessage (Some (lit "Hello")))]).
    apply (Hchinese sample_scripts NI_HAO (Some false)
             (sample_world None hello_endpoint) r r); reflexivity.
  - apply Hother. vm_compute. discriminate.
Defined.

Lemma scripts_handle_beautification_other trans text for_git w :
  ScriptsBeauti.check_language text <> lit "English" ->
  ScriptsBeauti.handle_beautification trans text for_git w =
    (Ok tt, emit (EvInfo BEAUTIFY_HINT) w).
Proof.
  intros Hlang. unfold ScriptsBeauti.handle_beautification, str_eqb.
  rewrite bool_decide_eq_false_2 by exact Hlang. reflexivity.
Qed.

Lemma scripts_handle_beautification_english trans text for_git w r :
  let flag := default true for_git in
  let model := ScriptsBeauti.model trans in
  ScriptsBeauti.check_language text = lit "English" ->
  endpoint w (trace w) model (beautify_messages text flag) = Returns r ->
  ScriptsBeauti.handle_beautification trans text for_git w =
    (Ok tt, emits [EvCreate model (beautify_messages text flag);
                   EvInfo (reply_text r)] w).
Proof.
  intros flag model Hlang H.
  unfold ScriptsBeauti.handle_beautification, str_eqb.
  rewrite bool_decide_eq_true_2 by exact Hlang.
  fold flag. unfold bind. rewrite scripts_beautify_run.
  fold model. rewrite H.
  unfold logging_info. rewrite percent_format_s. reflexivity.
Qed.

Lemma beauti_handle_beautification_other trans text w :
  Beauti.check_language text <> lit "English" ->
  Beauti.handle_beautification trans text w = (Ok tt, emit (EvInfo BEAUTIFY_HINT) w).
Proof.
  intros Hlang. unfold Beauti.handle_beautification, str_eqb.
  rewrite bool_decide_eq_false_2 by exact Hlang. reflexivity.
Qed.

Lemma beauti_handle_beautification_english trans text w r :
  let model := Beauti.model trans in
  Beauti.check_language text = lit "English" ->
  endpoint w (trace w) model (beauti_beautify_messages text) = Returns r ->
  Completion.choices r <> [] ->
  Beauti.handle_beautification trans text w =
    (Ok tt, emits [EvCreate model (beauti_beautify_messages text);
                   EvInfo (reply_text r)] w).
Proof.
  intros model Hlang H Hc.
  unfold Beauti.handle_beautification, str_eqb.
  rewrite bool_decide_eq_true_2 by exact Hlang.
  unfold bind. rewrite beauti_beautify_run.
  fold model. rewrite H.
  destruct (Completion.choices r) as [|c more] eqn:E; [contradiction|].
  unfold logging_info. rewrite percent_format_s. reflexivity.
Qed.

Lemma network_calls_emits es w :
  network_calls (trace (emits es w)) =
  (network_calls (trace w) + network_calls es)%nat.
Proof. now rewrite trace_emits, network_calls_app. Qed.

(** C8. [handle_beautification] on text detected as English sends one
    beautify request and logs the reply; on any other text, Chinese text
    included, it sends nothing and logs the corrective hint.  Both variants
    behave so (the first as long as the completion has a choice). *)
Theorem handle_beautification_flow :
  (forall trans text for_git w r,
     let flag := default true for_git in
     let model := ScriptsBeauti.model trans in
     let w' := emits [EvCreate model (beautify_messages text flag);
                      EvInfo (reply_text r)] w in
     ScriptsBeauti.check_language text = lit "English" ->
     endpoint w (trace w) model (beautify_messages text flag) = Returns r ->
     ScriptsBeauti.handle_beautification trans text for_git w = (Ok tt, w')
     /\ network_calls (trace w') = S (network_calls (trace w)))
  /\ (forall trans text for_git w,
        ScriptsBeauti.check_language text <> lit "English" ->
        ScriptsBeauti.handle_beautification trans text for_git w =
          (Ok tt, emit (EvInfo BEAUTIFY_HINT) w)
        /\ network_calls (trace (emit (EvInfo BEAUTIFY_HINT) w)) =
           network_calls (trace w))
  /\ (forall trans text for_git w,
        ScriptsBeauti.check_language text = lit "Chinese" ->
        ScriptsBeauti.handle_beautification trans text for_git w =
          (Ok tt, emit (EvInfo BEAUTIFY_HINT) w))
  /\ (forall trans text w r,
        let model := Beauti.model trans in
        let w' := emits [EvCreate model (beauti_beautify_messages text);
                         EvInfo (reply_text r)] w in
        Beauti.check_language text = lit "English" ->
        endpoint w (trace w) model (beauti_beautify_messages text) = Returns r ->
        Completion.choices r <> [] ->
        Beauti.handle_beautification trans text w = (Ok tt, w')
        /\ network_calls (trace w') = S (network_calls (trace w)))
  /\ (forall trans text w,
        Beauti.check_language text <> lit "English" ->
        Beauti.handle_beautification trans text w =
          (Ok tt, emit (EvInfo BEAUTIFY_HINT) w)
        /\ network_calls (trace (emit (EvInfo BEAUTIFY_HINT) w)) =
           network_calls (trace w)).
Proof.
  split; [|split; [|split; [|split]]].
  - intros trans text for_git w r flag model w' Hlang H. split.
    + now apply scripts_handle_beautification_english.
    + unfold w'. rewrite network_calls_emits. simpl. apply Nat.add_1_r.
  - intros trans text for_git w Hlang. split.
    + now apply scripts_handle_beautification_other.
    + rewrite trace_emit, network_calls_app. apply Nat.add_0_r.
  - intros trans text for_git w Hlang.
    apply scripts_handle_beautification_other. rewrite Hlang. discriminate.
  - intros trans text w r model w' Hlang H Hc. split.
    + now apply beauti_handle_beautification_english.
    + unfold w'. rewrite network_calls_emits. simpl. apply Nat.add_1_r.
  - intros trans text w Hlang. split.
    + now apply beauti_handle_beautification_other.
    + rewrite trace_emit, network_calls_app. apply Nat.add_0_r.
Qed.

(** Beautifying "hello world" sends one request; beautifying "ni hao" in
    ideographs sends none. *)
Lemma handle_beautification_flow_witness :
  ScriptsBeauti.handle_beautification sample_scripts (lit "hello world") (Some false)
    (sample_world None hello_endpoint) =
    (Ok tt,
     emits [EvCreate (lit "glm4") (beautify_messages (lit "hello world") false);
            EvInfo (lit "Hello")] (sample_world None hello_endpoint))
  /\ ScriptsBeauti.handle_beautification sample_scripts NI_HAO (Some false)
       (sample_world None hello_endpoint) =
     (Ok tt, emit (EvInfo BEAUTIFY_HINT) (sample_world None hello_endpoint)).
Proof.
  destruct handle_beautification_flow as (Henglish & _ & Hchinese & _).
  split.
  - pose (r := Completion.Build
                 [Completion.BuildChoice (Completion.BuildMessage (Some (lit "Hello")))]).
    apply (Henglish sample_scripts (lit "hello world") (Some false)
             (sample_world None hello_endpoint) r); reflexivity.
  - apply Hchinese. reflexivity.
Defined.

(** C7. With neither [-t] nor [-b], [main] of either variant logs the usage
    hint and returns: the trace gains that one line, so the [.env] file is
    not loaded, no client is built, nothing is sent to the endpoint, and the
    environment is left as it was. *)
Theorem main_without_action args w :
  Namespace.translate args = false ->
  Namespace.beautify args = false ->
  Beauti.main args w = (Ok tt, emit (EvInfo USAGE_HINT) w)
  /\ ScriptsBeauti.main args w = (Ok tt, emit (EvInfo USAGE_HINT) w)
  /\ trace (emit (EvInfo USAGE_HINT) w) = trace w ++ [EvInfo USAGE_HINT]
  /\ network_calls (trace (emit (EvInfo USAGE_HINT) w)) = network_calls (trace w)
  /\ environ (emit (EvInfo USAGE_HINT) w) = environ w.
Proof.
  intros Ht Hb. unfold Beauti.main, ScriptsBeauti.main. rewrite Ht, Hb.
  repeat split.
  rewrite trace_emit, network_calls_app. apply Nat.add_0_r.
Qed.

(** No [.env] file is needed when no action is asked for. *)
Lemma main_without_action_witness :
  ScriptsBeauti.main (Namespace.Build [lit "hello"; lit "world"] false false true)
    (sample_world None no_choice_endpoint) =
    (Ok tt, emit (EvInfo USAGE_HINT) (sample_world None no_choice_endpoint)).
Proof.
  apply (main_without_action
           (Namespace.Build [lit "hello"; lit "world"] false false true)
           (sample_world None no_choice_endpoint)); reflexivity.
Defined.

(** C9. The two variants have the same language detector and the same
    configuration loader: equal results on every string, and on every world
    the same mapping or the same error, with the same effects. *)
Theorem variants_agree :
  (forall s, Beauti.check_language s = ScriptsBeauti.check_language s)
  /\ (forall w, Beauti.load_env w = ScriptsBeauti.load_env w).
Proof. split; intros; reflexivity. Qed.

(** ** The default of the style flag *)

Lemma scripts_handle_translation_first_request trans text for_git w :
  ScriptsBeauti.check_language text = lit "Chinese" ->
  exists rest,
    trace (snd (ScriptsBeauti.handle_translation trans text for_git w)) =
    trace w ++ EvCreate (ScriptsBeauti.model trans)
                 (translate_messages text (default true for_git)) :: rest.
Proof.
  intros Hlang. unfold ScriptsBeauti.handle_translation, str_eqb.
  rewrite bool_decide_eq_true_2 by exact Hlang.
  unfold bind at 1. rewrite scripts_translate_run.
  destruct (endpoint w (trace w) _ _) as [r1 | err].
  - unfold bind at 1. unfold logging_info at 1.
    unfold bind at 1. rewrite scripts_beautify_run.
    cbn [endpoint emit trace].
    destruct (endpoint w _ _ _) as [r2 | err]; cbn [snd logging_info emit trace];
      eexists; rewrite <- !app_assoc; reflexivity.
  - exists []. reflexivity.
Qed.

Lemma scripts_handle_beautification_first_request trans text for_git w :
  ScriptsBeauti.check_language text = lit "English" ->
  exists rest,
    trace (snd (ScriptsBeauti.handle_beautification trans text for_git w)) =
    trace w ++ EvCreate (ScriptsBeauti.model trans)
                 (beautify_messages text (default true for_git)) :: rest.
Proof.
  intros Hlang. unfold ScriptsBeauti.handle_beautification, str_eqb.
  rewrite bool_decide_eq_true_2 by exact Hlang.
  unfold bind at 1. rewrite scripts_beautify_run.
  destruct (endpoint w (trace w) _ _) as [r | err].
  - cbn [snd logging_info emit trace]. eexists.
    rewrite <- !app_assoc. reflexivity.
  - exists []. reflexivity.
Qed.

Lemma translate_messages_differ text :
  translate_messages text true <> translate_messages text false.
Proof.
  intros H.
  apply (system_prompt_differs ascii_capitalize (lit "translator")
           (lit "please translate directly without explanation") text).
  exact (f_equal (fun l => match l with m :: _ => Param.content m | [] => [] end) H).
Qed.

Lemma beautify_messages_differ text :
  beautify_messages text true <> beautify_messages text false.
Proof.
  intros H.
  apply (system_prompt_differs ascii_capitalize (lit "writer")
           (lit "please rewrite the text directly without explanation") text).
  exact (f_equal (fun l => match l with m :: _ => Param.content m | [] => [] end) H).
Qed.

(** The constructor, once the configuration is complete: it fails when the
    client refuses the two settings, and builds the client otherwise. *)
Lemma scripts_init_loaded w file :
  let env := loaded_environ (environ w) file in
  let key := setting env (lit "GLM_API") in
  let url := setting env (lit "API_URL") in
  dotenv w = Some file -> file <> ∅ -> missing_names env = [] ->
  ScriptsBeauti.__init__ w =
    match openai_rejects w key url with
    | Some err =>
        (Raise (ClientError err), set_environ env (emit EvLoadDotenv w))
    | None =>
        (Ok {| ScriptsBeauti.env_vars :=
                 [(lit "GLM_API", key); (lit "API_URL", url);
                  (lit "model", lit "glm4")];
               ScriptsBeauti.model := lit "glm4";
               ScriptsBeauti.client := {| api_key := key; base_url := url |} |},
         emit (EvOpenAI key url) (set_environ env (emit EvLoadDotenv w)))
    end.
Proof.
  intros env key url Hfile Hne Hmissing.
  unfold ScriptsBeauti.__init__. unfold bind at 1.
  rewrite scripts_load_env_run. unfold load_env_outcome.
  rewrite Hfile, bool_decide_eq_false_2 by exact Hne.
  cbv zeta. fold env. rewrite Hmissing. fold key url.
  unfold bind, dict_getitem, OpenAI_new, ret. cbn [dict_get].
  change (str_eqb (lit "GLM_API") (lit "model")) with false.
  change (str_eqb (lit "API_URL") (lit "model")) with false.
  change (str_eqb (lit "model") (lit "model")) with true.
  change (str_eqb (lit "GLM_API") (lit "GLM_API")) with true.
  change (str_eqb (lit "GLM_API") (lit "API_URL")) with false.
  change (str_eqb (lit "API_URL") (lit "API_URL")) with true.
  cbn [openai_rejects set_environ emit].
  destruct (openai_rejects w key url); reflexivity.
Qed.

Lemma scripts_init_run w file :
  let env := loaded_environ (environ w) file in
  let key := setting env (lit "GLM_API") in
  let url := setting env (lit "API_URL") in
  dotenv w = Some file -> file <> ∅ -> missing_names env = [] ->
  openai_rejects w key url = None ->
  ScriptsBeauti.__init__ w =
    (Ok {| ScriptsBeauti.env_vars :=
             [(lit "GLM_API", key); (lit "API_URL", url); (lit "model", lit "glm4")];
           ScriptsBeauti.model := lit "glm4";
           ScriptsBeauti.client := {| api_key := key; base_url := url |} |},
     emit (EvOpenAI key url) (set_environ env (emit EvLoadDotenv w))).
Proof.
  intros env key url Hfile Hne Hmissing Haccept.
  rewrite (scripts_init_loaded w file Hfile Hne Hmissing).
  fold env key url. rewrite Haccept. reflexivity.
Qed.

Lemma scripts_handle_beautification_extends trans text for_git w :
  exists rest,
    trace (snd (ScriptsBeauti.handle_beautification trans text for_git w)) =
    trace w ++ rest.
Proof.
  unfold ScriptsBeauti.handle_beautification.
  destruct (str_eqb _ _).
  - unfold bind. rewrite scripts_beautify_run.
    destruct (endpoint w (trace w) _ _) as [r | err];
      cbn [snd logging_info emit trace]; eexists;
      rewrite <- ?app_assoc; reflexivity.
  - eexists. reflexivity.
Qed.

(** With [-t], on Chinese text, a complete configuration and a client that
    is built, the first request [main] sends is the translate request in the
    style of the [--github] flag. *)
Lemma scripts_main_translate_request args w file :
  let env := loaded_environ (environ w) file in
  let key := setting env (lit "GLM_API") in
  let url := setting env (lit "API_URL") in
  let text := join (lit " ") (Namespace.content args) in
  dotenv w = Some file -> file <> ∅ -> missing_names env = [] ->
  openai_rejects w key url = None ->
  Namespace.translate args = true ->
  ScriptsBeauti.check_language text = lit "Chinese" ->
  exists rest,
    trace (snd (ScriptsBeauti.main args w)) =
    trace w ++ [EvLoadDotenv; EvOpenAI key url;
                EvCreate (lit "glm4") (translate_messages text (Namespace.github args))]
            ++ rest.
Proof.
  intros env key url text Hfile Hne Hmissing Haccept Ht Hlang.
  unfold ScriptsBeauti.main. rewrite Ht. cbn [negb andb].
  unfold bind at 1. rewrite (scripts_init_run w file Hfile Hne Hmissing Haccept).
  fold env key url text.
  set (trans := {| ScriptsBeauti.env_vars := _ |}).
  set (w2 := emit _ (set_environ env (emit EvLoadDotenv w))).
  destruct (scripts_handle_translation_first_request trans text
              (Some (Namespace.github args)) w2 Hlang) as [rest1 Hrest1].
  unfold bind at 1.
  destruct (ScriptsBeauti.handle_translation trans text _ w2) as [[[]|e] w3].
  - cbn [snd] in Hrest1.
    destruct (Namespace.beautify args).
    + destruct (scripts_handle_beautification_extends trans text
                  (Some (Namespace.github args)) w3) as [rest2 Hrest2].
      rewrite Hrest2, Hrest1. exists (rest1 ++ rest2).
      unfold w2. cbn [trace emit set_environ default].
      rewrite <- !app_assoc. reflexivity.
    + cbn [ret snd]. rewrite Hrest1. exists rest1.
      unfold w2. cbn [trace emit set_environ default].
      rewrite <- !app_assoc. reflexivity.
  - cbn [snd] in *. rewrite Hrest1. exists rest1.
    unfold w2. cbn [trace emit set_environ default].
    rewrite <- !app_assoc. reflexivity.
Qed.

Lemma english_is_not_chinese text :
  ScriptsBeauti.check_language text = lit "English" ->
  ScriptsBeauti.check_language text <> lit "Chinese".
Proof. intros ->. discriminate. Qed.

(** With [-b], on English text, a complete configuration and a client that
    is built, the one request [main] sends is the beautify request in the
    style of the [--github] flag; with [-t] as well, it comes after the
    translate gate's hint. *)
Lemma scripts_main_beautify_request args w file :
  let env := loaded_environ (environ w) file in
  let key := setting env (lit "GLM_API") in
  let url := setting env (lit "API_URL") in
  let text := join (lit " ") (Namespace.content args) in
  dotenv w = Some file -> file <> ∅ -> missing_names env = [] ->
  openai_rejects w key url = None ->
  Namespace.beautify args = true ->
  ScriptsBeauti.check_language text = lit "English" ->
  exists rest,
    trace (snd (ScriptsBeauti.main args w)) =
    trace w ++ [EvLoadDotenv; EvOpenAI key url]
            ++ (if Namespace.translate args then [EvInfo TRANSLATE_HINT] else [])
            ++ [EvCreate (lit "glm4") (beautify_messages text (Namespace.github args))]
            ++ rest.
Proof.
  intros env key url text Hfile Hne Hmissing Haccept Hb Hlang.
  unfold ScriptsBeauti.main. rewrite Hb. cbn [negb]. rewrite andb_false_r.
  unfold bind at 1. rewrite (scripts_init_run w file Hfile Hne Hmissing Haccept).
  fold env key url text.
  set (trans := {| ScriptsBeauti.env_vars := _ |}).
  set (w2 := emit _ (set_environ env (emit EvLoadDotenv w))).
  unfold bind at 1.
  destruct (Namespace.translate args).
  - rewrite scripts_handle_translation_other
      by (now apply english_is_not_chinese).
    destruct (scripts_handle_beautification_first_request trans text
                (Some (Namespace.github args)) (emit (EvInfo TRANSLATE_HINT) w2) Hlang)
      as [rest Hrest].
    rewrite Hrest. exists rest.
    unfold w2. cbn [trace emit set_environ default ScriptsBeauti.model trans].
    rewrite <- !app_assoc. reflexivity.
  - cbn [ret].
    destruct (scripts_handle_beautification_first_request trans text
                (Some (Namespace.github args)) w2 Hlang) as [rest Hrest].
    rewrite Hrest. exists rest.
    unfold w2. cbn [trace emit set_environ default ScriptsBeauti.model trans].
    rewrite <- !app_assoc. reflexivity.
Qed.

(** C10. In the second variant a call of [handle_translation] or
    [handle_beautification] that leaves [for_git] out behaves as with
    [for_git=True], while [main] passes the [--github] flag, which is
    [False] without [-g], to both handlers: whenever the client is built,
    the request of the translate gate (on Chinese text) and the request of
    the beautify gate (on English text) are in the style of that flag.  So
    the request of a direct call without the keyword is in the GitHub
    style, the request of the command line without [-g] is in the plain
    style, and the two differ. *)
Theorem handler_style_flag_default :
  (forall trans text,
     ScriptsBeauti.handle_translation trans text None =
     ScriptsBeauti.handle_translation trans text (Some true))
  /\ (forall trans text,
        ScriptsBeauti.handle_beautification trans text None =
        ScriptsBeauti.handle_beautification trans text (Some true))
  /\ (forall args w file,
        let env := loaded_environ (environ w) file in
        let key := setting env (lit "GLM_API") in
        let url := setting env (lit "API_URL") in
        let joined := join (lit " ") (Namespace.content args) in
        dotenv w = Some file -> file <> ∅ -> missing_names env = [] ->
        openai_rejects w key url = None ->
        Namespace.translate args = true ->
        ScriptsBeauti.check_language joined = lit "Chinese" ->
        exists rest,
          trace (snd (ScriptsBeauti.main args w)) =
          trace w ++ [EvLoadDotenv; EvOpenAI key url;
                      EvCreate (lit "glm4")
                        (translate_messages joined (Namespace.github args))]
                  ++ rest)
  /\ (forall args w file,
        let env := loaded_environ (environ w) file in
        let key := setting env (lit "GLM_API") in
        let url := setting env (lit "API_URL") in
        let joined := join (lit " ") (Namespace.content args) in
        dotenv w = Some file -> file <> ∅ -> missing_names env = [] ->
        openai_rejects w key url = None ->
        Namespace.beautify args = true ->
        ScriptsBeauti.check_language joined = lit "English" ->
        exists rest,
          trace (snd (ScriptsBeauti.main args w)) =
          trace w ++ [EvLoadDotenv; EvOpenAI key url]
                  ++ (if Namespace.translate args
                      then [EvInfo TRANSLATE_HINT] else [])
                  ++ [EvCreate (lit "glm4")
                        (beautify_messages joined (Namespace.github args))]
                  ++ rest)
  /\ (forall trans text w,
        ScriptsBeauti.check_language text = lit "Chinese" ->
        (exists rest,
           trace (snd (ScriptsBeauti.handle_translation trans text None w)) =
           trace w ++ EvCreate (ScriptsBeauti.model trans)
                        (translate_messages text true) :: rest)
        /\ ScriptsBeauti.handle_translation trans text None w <>
           ScriptsBeauti.handle_translation trans text (Some false) w)
  /\ (forall trans text w,
        ScriptsBeauti.check_language text = lit "English" ->
        (exists rest,
           trace (snd (ScriptsBeauti.handle_beautification trans text None w)) =
           trace w ++ EvCreate (ScriptsBeauti.model trans)
                        (beautify_messages text true) :: rest)
        /\ ScriptsBeauti.handle_beautification trans text None w <>
           ScriptsBeauti.handle_beautification trans text (Some false) w).
Proof.
  split; [|split; [|split; [|split; [|split]]]].
  - reflexivity.
  - reflexivity.
  - intros args w file env key url joined Hfile Hne Hmissing Haccept Ht Hlang.
    apply (scripts_main_translate_request args w file Hfile Hne Hmissing Haccept Ht Hlang).
  - intros args w file env key url joined Hfile Hne Hmissing Haccept Hb Hlang.
    apply (scripts_main_beautify_request args w file Hfile Hne Hmissing Haccept Hb Hlang).
  - intros trans text w Hlang. split.
    + apply (scripts_handle_translation_first_request trans text None w Hlang).
    + intros Heq.
      destruct (scripts_handle_translation_first_request trans text None w Hlang)
        as [rest1 H1].
      destruct (scripts_handle_translation_first_request trans text (Some false) w Hlang)
        as [rest2 H2].
      rewrite Heq, H2 in H1. apply app_inv_head in H1.
      apply (translate_messages_differ text). symmetry.
      exact (f_equal (fun l => match l with EvCreate _ m :: _ => m | _ => [] end) H1).
  - intros trans text w Hlang. split.
    + apply (scripts_handle_beautification_first_request trans text None w Hlang).
    + intros Heq.
      destruct (scripts_handle_beautification_first_request trans text None w Hlang)
        as [rest1 H1].
      destruct (scripts_handle_beautification_first_request trans text (Some false) w Hlang)
        as [rest2 H2].
      rewrite Heq, H2 in H1. apply app_inv_head in H1.
      apply (beautify_messages_differ text). symmetry.
      exact (f_equal (fun l => match l with EvCreate _ m :: _ => m | _ => [] end) H1).
Qed.

Lemma full_dotenv_not_empty : full_dotenv <> ∅.
Proof.
  intros E. apply (f_equal (fun m => m !! lit "API_URL")) in E.
  vm_compute in E. discriminate E.
Qed.

(** The command lines [-t] on "ni hao" and [-b] on "hello", both without
    [-g], and a direct call of the handler without the keyword. *)
Lemma handler_style_flag_default_witness :
  (exists rest,
     trace (snd (ScriptsBeauti.main (Namespace.Build [NI_HAO] false true false)
                   (sample_world (Some full_dotenv) hello_endpoint))) =
     [EvLoadDotenv;
      EvOpenAI (lit "secret") (lit "https://example.invalid/v4");
      EvCreate (lit "glm4") (translate_messages NI_HAO false)] ++ rest)
  /\ (exists rest,
        trace (snd (ScriptsBeauti.main (Namespace.Build [lit "hello"] true false false)
                      (sample_world (Some full_dotenv) hello_endpoint))) =
        [EvLoadDotenv;
         EvOpenAI (lit "secret") (lit "https://example.invalid/v4");
         EvCreate (lit "glm4") (beautify_messages (lit "hello") false)] ++ rest)
  /\ ScriptsBeauti.handle_translation sample_scripts NI_HAO None
       (sample_world None hello_endpoint) <>
     ScriptsBeauti.handle_translation sample_scripts NI_HAO (Some false)
       (sample_world None hello_endpoint).
Proof.
  destruct handler_style_flag_default
    as (_ & _ & Htranslate & Hbeautify & Hdirect & _).
  split; [|split].
  - destruct (Htranslate (Namespace.Build [NI_HAO] false true false)
                (sample_world (Some full_dotenv) hello_endpoint) full_dotenv
                eq_refl full_dotenv_not_empty) as [rest Hrest];
      [vm_compute; reflexivity | reflexivity | reflexivity | reflexivity |].
    exists rest. rewrite Hrest. vm_compute. reflexivity.
  - destruct (Hbeautify (Namespace.Build [lit "hello"] true false false)
                (sample_world (Some full_dotenv) hello_endpoint) full_dotenv
                eq_refl full_dotenv_not_empty) as [rest Hrest];
      [vm_compute; reflexivity | reflexivity | reflexivity | reflexivity |].
    exists rest. rewrite Hrest. vm_compute. reflexivity.
  - apply Hdirect. reflexivity.
Defined.

(** ** Counting requests *)

Lemma calls_emit_create model messages w :
  network_calls (trace (emit (EvCreate model messages) w)) =
  S (network_calls (trace w)).
Proof. rewrite trace_emit, network_calls_app. apply Nat.add_1_r. Qed.

Lemma calls_emit_info line w :
  network_calls (trace (emit (EvInfo line) w)) = network_calls (trace w).
Proof. rewrite trace_emit, network_calls_app. apply Nat.add_0_r. Qed.

Lemma calls_emit_openai key url w :
  network_calls (trace (emit (EvOpenAI key url) w)) = network_calls (trace w).
Proof. rewrite trace_emit, network_calls_app. apply Nat.add_0_r. Qed.

Lemma calls_emit_load_dotenv w :
  network_calls (trace (emit EvLoadDotenv w)) = network_calls (trace w).
Proof. rewrite trace_emit, network_calls_app. apply Nat.add_0_r. Qed.

Lemma trace_set_environ env w : trace (set_environ env w) = trace w.
Proof. reflexivity. Qed.

Ltac count_calls :=
  cbn [snd fst];
  repeat first
    [ rewrite calls_emit_create | rewrite calls_emit_info
    | rewrite calls_emit_openai | rewrite calls_emit_load_dotenv
    | rewrite trace_set_environ ].

(** ** The detector, read backwards *)

Lemma check_language_chinese_iff s :
  ScriptsBeauti.check_language s = lit "Chinese" <-> contains is_cjk_ideograph s.
Proof.
  split.
  - unfold ScriptsBeauti.check_language. intros H.
    destruct (match_truthy (re_search CJK_CLASS s)) eqn:Hc.
    + now apply search_cjk.
    + destruct (match_truthy (re_search LETTER_CLASS s)); discriminate H.
  - apply scripts_check_language_contract.
Qed.

Lemma check_language_english_iff s :
  ScriptsBeauti.check_language s = lit "English" <->
  ~ contains is_cjk_ideograph s /\ contains is_ascii_letter s.
Proof.
  split.
  - unfold ScriptsBeauti.check_language. intros H.
    destruct (match_truthy (re_search CJK_CLASS s)) eqn:Hc; [discriminate H|].
    destruct (match_truthy (re_search LETTER_CLASS s)) eqn:Hl; [|discriminate H].
    split; [|now apply search_letter].
    intros Hcjk. apply search_cjk in Hcjk. congruence.
  - intros [Hn Hl]. now apply scripts_check_language_contract.
Qed.

Lemma contains_app P a b : contains P (a ++ b) <-> contains P a \/ contains P b.
Proof.
  unfold contains. split.
  - intros [c [Hin Hc]]. apply in_app_or in Hin as [Hin | Hin]; eauto.
  - intros [[c [Hin Hc]] | [c [Hin Hc]]]; exists c; split; auto;
      apply in_or_app; auto.
Qed.

Lemma contains_join P sep words :
  ~ contains P sep ->
  contains P (join sep words) <-> exists word, In word words /\ contains P word.
Proof.
  intros Hsep. induction words as [|x rest IH].
  - simpl. split; [intros [c [[] _]] | intros [word [[] _]]].
  - destruct rest as [|y rest'].
    + simpl. split.
      * intros H. exists x. auto.
      * intros [word [[<- | []] H]]. exact H.
    + change (join sep (x :: y :: rest')) with (x ++ sep ++ join sep (y :: rest')).
      rewrite !contains_app, IH. split.
      * intros [H | [H | [word [Hin H]]]].
        -- exists x. split; [now left | exact H].
        -- contradiction.
        -- exists word. split; [now right | exact H].
      * intros [word [[<- | Hin] H]]; [now left |].
        right. right. exists word. auto.
Qed.

Lemma space_has_no_ideograph : ~ contains is_cjk_ideograph (lit " ").
Proof.
  intros [c [Hin Hc]]. unfold is_cjk_ideograph in Hc. simpl in Hin.
  destruct Hin as [<- | []]. lia.
Qed.

Lemma space_has_no_letter : ~ contains is_ascii_letter (lit " ").
Proof.
  intros [c [Hin Hc]]. unfold is_ascii_letter in Hc. simpl in Hin.
  destruct Hin as [<- | []]. lia.
Qed.

(** The text [main] hands to the handlers is the words of the command line
    joined by single spaces.  It is detected as Chinese exactly when some
    word contains a CJK ideograph, and as English exactly when no word does
    and some word contains an ASCII letter: the separator never changes the
    answer. *)
Theorem joined_text_language words :
  (ScriptsBeauti.check_language (join (lit " ") words) = lit "Chinese" <->
   exists word, In word words /\ contains is_cjk_ideograph word)
  /\ (ScriptsBeauti.check_language (join (lit " ") words) = lit "English" <->
      (forall word, In word words -> ~ contains is_cjk_ideograph word)
      /\ exists word, In word words /\ contains is_ascii_letter word)
  /\ Beauti.check_language (join (lit " ") words) =
     ScriptsBeauti.check_language (join (lit " ") words).
Proof.
  split; [|split; [|reflexivity]].
  - rewrite check_language_chinese_iff.
    apply contains_join, space_has_no_ideograph.
  - rewrite check_language_english_iff.
    rewrite (contains_join _ _ _ space_has_no_ideograph).
    rewrite (contains_join _ _ _ space_has_no_letter).
    split.
    + intros [Hn Hl]. split; [|exact Hl].
      intros word Hin Hc. apply Hn. exists word. auto.
    + intros [Hn Hl]. split; [|exact Hl].
      intros [word [Hin Hc]]. exact (Hn word Hin Hc).
Qed.

(** The detector looks at which code points occur, not where: rearranging
    the characters of a text never changes its language. *)
Theorem check_language_permutation s t :
  Permutation s t ->
  ScriptsBeauti.check_language s = ScriptsBeauti.check_language t
  /\ Beauti.check_language s = Beauti.check_language t.
Proof.
  intros Hperm.
  assert (Hc : forall P, contains P s <-> contains P t).
  { intros P. unfold contains. split; intros [c [Hin Hc]]; exists c; split; auto.
    - now apply (Permutation_in _ Hperm).
    - now apply (Permutation_in _ (Permutation_sym Hperm)). }
  assert (H : ScriptsBeauti.check_language s = ScriptsBeauti.check_language t).
  { unfold ScriptsBeauti.check_language.
    destruct (match_truthy (re_search CJK_CLASS s)) eqn:Hs,
             (match_truthy (re_search CJK_CLASS t)) eqn:Ht; try reflexivity.
    - apply search_cjk, Hc, search_cjk in Hs. congruence.
    - apply search_cjk, Hc, search_cjk in Ht. congruence.
    - destruct (match_truthy (re_search LETTER_CLASS s)) eqn:Ls,
               (match_truthy (re_search LETTER_CLASS t)) eqn:Lt; try reflexivity.
      + apply search_letter, Hc, search_letter in Ls. congruence.
      + apply search_letter, Hc, search_letter in Lt. congruence. }
  split; [exact H | exact H].
Qed.

Lemma check_language_permutation_witness :
  ScriptsBeauti.check_language (lit "ab1") = ScriptsBeauti.check_language (lit "1ba")
  /\ Beauti.check_language (lit "ab1") = Beauti.check_language (lit "1ba").
Proof.
  apply check_language_permutation.
  apply (perm_trans (l' := lit "b1a")).
  - apply (Permutation_cons_append (lit "b1") 97).
  - change (lit "b1a") with ([98; 49] ++ [97]). change (lit "1ba") with ([49; 98] ++ [97]).
    apply Permutation_app_tail. apply perm_swap.
Defined.

(** ** Failures of the remote endpoint *)

(** When the endpoint raises, [_process_text] of either variant lets the
    error through: one request has been sent and nothing else happened. *)
Theorem process_text_propagates_failure self1 self2 p w err :
  endpoint w (trace w) (Beauti.model self1) (messages_of p) = Raises err ->
  endpoint w (trace w) (ScriptsBeauti.model self2) (messages_of p) = Raises err ->
  Beauti._process_text self1 p w =
    (Raise (APIError err), emit (EvCreate (Beauti.model self1) (messages_of p)) w)
  /\ ScriptsBeauti._process_text self2 p w =
    (Raise (APIError err),
     emit (EvCreate (ScriptsBeauti.model self2) (messages_of p)) w).
Proof.
  intros H1 H2.
  rewrite beauti_process_text_run, scripts_process_text_run, H1, H2.
  split; reflexivity.
Qed.

(** The first variant's [_process_text], on a completion that has at least
    one choice, returns the first choice's content when it is not empty and
    "No response." otherwise, after one request. *)
Theorem beauti_process_text_contract self p w r :
  endpoint w (trace w) (Beauti.model self) (messages_of p) = Returns r ->
  Completion.choices r <> [] ->
  Beauti._process_text self p w =
    (Ok (reply_text r), emit (EvCreate (Beauti.model self) (messages_of p)) w)
  /\ (forall choice more text,
        Completion.choices r = choice :: more ->
        Completion.content (Completion.message choice) = Some text ->
        text <> [] -> reply_text r = text)
  /\ (forall choice more,
        Completion.choices r = choice :: more ->
        Completion.content (Completion.message choice) = None
        \/ Completion.content (Completion.message choice) = Some [] ->
        reply_text r = lit "No response.").
Proof.
  intros H Hc. split; [|apply reply_text_cases].
  rewrite beauti_process_text_run, H.
  destruct (Completion.choices r); [contradiction | reflexivity].
Qed.

Lemma process_text_propagates_failure_witness :
  ScriptsBeauti._process_text sample_scripts sample_prompt
    (sample_world None failing_endpoint) =
  (Raise (APIError (lit "timeout")),
   emit (EvCreate (lit "glm4") (messages_of sample_prompt))
     (sample_world None failing_endpoint)).
Proof.
  apply (process_text_propagates_failure sample_beauti sample_scripts sample_prompt
           (sample_world None failing_endpoint) (lit "timeout")); reflexivity.
Defined.

Lemma beauti_process_text_contract_witness :
  Beauti._process_text sample_beauti sample_prompt (sample_world None hello_endpoint) =
  (Ok (lit "Hello"),
   emit (EvCreate (lit "glm4") (messages_of sample_prompt))
     (sample_world None hello_endpoint)).
Proof.
  apply (beauti_process_text_contract sample_beauti sample_prompt
           (sample_world None hello_endpoint) hello_completion);
    [reflexivity | discriminate].
Defined.

(** ** The constructor of the transform client *)

Lemma load_env_outcome_trace w :
  trace (snd (load_env_outcome w)) = trace w ++ [EvLoadDotenv].
Proof.
  unfold load_env_outcome. destruct (dotenv w) as [file|]; [|reflexivity].
  destruct (bool_decide (file = ∅)); [reflexivity|].
  cbv zeta. destruct (missing_names _); reflexivity.
Qed.

Lemma load_env_outcome_error w e :
  fst (load_env_outcome w) = Raise e -> is_environment_error e.
Proof.
  unfold load_env_outcome, is_environment_error.
  destruct (dotenv w) as [file|].
  - destruct (bool_decide (file = ∅)).
    + intros [= <-]. eauto.
    + cbv zeta. destruct (missing_names _); [discriminate|].
      intros [= <-]. eauto.
  - intros [= <-]. eauto.
Qed.

Lemma scripts_init_fails w e :
  fst (ScriptsBeauti.load_env w) = Raise e ->
  ScriptsBeauti.__init__ w = (Raise e, snd (ScriptsBeauti.load_env w)).
Proof.
  intros H. unfold ScriptsBeauti.__init__. unfold bind at 1.
  destruct (ScriptsBeauti.load_env w) as [[cfg|e'] w1]; simpl in H.
  - discriminate H.
  - now injection H as ->.
Qed.

Lemma beauti_init_fails w e :
  fst (Beauti.load_env w) = Raise e ->
  Beauti.__init__ w = (Raise e, snd (Beauti.load_env w)).
Proof.
  intros H. unfold Beauti.__init__. unfold bind at 1.
  destruct (Beauti.load_env w) as [[cfg|e'] w1]; simpl in H.
  - discriminate H.
  - now injection H as ->.
Qed.

Lemma beauti_init_loaded w file :
  let env := loaded_environ (environ w) file in
  let key := setting env (lit "GLM_API") in
  let url := setting env (lit "API_URL") in
  dotenv w = Some file -> file <> ∅ -> missing_names env = [] ->
  Beauti.__init__ w =
    match openai_rejects w key url with
    | Some err =>
        (Raise (ClientError err), set_environ env (emit EvLoadDotenv w))
    | None =>
        (Ok {| Beauti.env_vars :=
                 [(lit "GLM_API", key); (lit "API_URL", url);
                  (lit "model", lit "glm4")];
               Beauti.model := lit "glm4";
               Beauti.client := {| api_key := key; base_url := url |} |},
         emit (EvOpenAI key url) (set_environ env (emit EvLoadDotenv w)))
    end.
Proof.
  intros env key url Hfile Hne Hmissing.
  unfold Beauti.__init__. unfold bind at 1.
  rewrite load_env_same, scripts_load_env_run. unfold load_env_outcome.
  rewrite Hfile, bool_decide_eq_false_2 by exact Hne.
  cbv zeta. fold env. rewrite Hmissing. fold key url.
  unfold bind, dict_getitem, OpenAI_new, ret. cbn [dict_get].
  change (str_eqb (lit "GLM_API") (lit "model")) with false.
  change (str_eqb (lit "API_URL") (lit "model")) with false.
  change (str_eqb (lit "model") (lit "model")) with true.
  change (str_eqb (lit "GLM_API") (lit "GLM_API")) with true.
  change (str_eqb (lit "GLM_API") (lit "API_URL")) with false.
  change (str_eqb (lit "API_URL") (lit "API_URL")) with true.
  cbn [openai_rejects set_environ emit].
  destruct (openai_rejects w key url); reflexivity.
Qed.

(** Either the loader fails, or the configuration is complete. *)
Lemma load_env_cases w :
  (exists e, fst (ScriptsBeauti.load_env w) = Raise e /\ is_environment_error e)
  \/ (exists file,
        dotenv w = Some file /\ file <> ∅
        /\ missing_names (loaded_environ (environ w) file) = []).
Proof.
  destruct (fst (ScriptsBeauti.load_env w)) as [cfg|e] eqn:H.
  - right. rewrite scripts_load_env_run in H. unfold load_env_outcome in H.
    destruct (dotenv w) as [file|]; [|discriminate H].
    exists file. split; [reflexivity|].
    destruct (bool_decide (file = ∅)) eqn:Hfile; [discriminate H|].
    apply bool_decide_eq_false in Hfile. split; [exact Hfile|].
    cbv zeta in H. destruct (missing_names _); [reflexivity | discriminate H].
  - left. exists e. split; [reflexivity|].
    rewrite scripts_load_env_run in H. now apply load_env_outcome_error in H.
Qed.

(** Building the transform client (second variant) loads the configuration
    first.  If that fails, the constructor fails with the loader's
    [EnvironmentVariableError] before the client is touched.  If it
    succeeds, the two settings are non-empty and are what the client is
    built from: when the client refuses them its error propagates and no
    client exists, otherwise the transformer holds the configuration, the
    model "glm4" and the client.  No [KeyError] can occur, and in no case is
    a request sent. *)
Theorem scripts_init_contract w :
  (forall e,
     fst (ScriptsBeauti.load_env w) = Raise e ->
     ScriptsBeauti.__init__ w = (Raise e, snd (ScriptsBeauti.load_env w))
     /\ is_environment_error e
     /\ trace (snd (ScriptsBeauti.__init__ w)) = trace w ++ [EvLoadDotenv])
  /\ (forall cfg,
        fst (ScriptsBeauti.load_env w) = Ok cfg ->
        exists key url,
          key <> [] /\ url <> []
          /\ dict_get cfg (lit "GLM_API") = Some key
          /\ dict_get cfg (lit "API_URL") = Some url
          /\ (forall err,
                openai_rejects w key url = Some err ->
                fst (ScriptsBeauti.__init__ w) = Raise (ClientError err)
                /\ trace (snd (ScriptsBeauti.__init__ w)) =
                   trace w ++ [EvLoadDotenv])
          /\ (openai_rejects w key url = None ->
              fst (ScriptsBeauti.__init__ w) =
                Ok {| ScriptsBeauti.env_vars := cfg;
                      ScriptsBeauti.model := lit "glm4";
                      ScriptsBeauti.client :=
                        {| api_key := key; base_url := url |} |}
              /\ trace (snd (ScriptsBeauti.__init__ w)) =
                 trace w ++ [EvLoadDotenv; EvOpenAI key url]))
  /\ network_calls (trace (snd (ScriptsBeauti.__init__ w))) = network_calls (trace w).
Proof.
  split; [|split].
  - intros e H. rewrite (scripts_init_fails w e H). split; [reflexivity|].
    rewrite scripts_load_env_run in *. split.
    + now apply load_env_outcome_error in H.
    + apply load_env_outcome_trace.
  - intros cfg H.
    destruct (load_env_cases w) as [[e [He _]] | [file (Hfile & Hne & Hmissing)]];
      [congruence|].
    rewrite (scripts_init_loaded w file Hfile Hne Hmissing).
    rewrite scripts_load_env_run in H. unfold load_env_outcome in H.
    rewrite Hfile, bool_decide_eq_false_2 in H by exact Hne.
    cbv zeta in H. rewrite Hmissing in H. injection H as <-.
    set (env := loaded_environ (environ w) file) in *.
    exists (setting env (lit "GLM_API")), (setting env (lit "API_URL")).
    assert (Hreq : forall name, In name REQUIRED -> setting env name <> []).
    { intros name Hin Hempty.
      assert (Hm : In name (missing_names env)) by (apply missing_names_spec; auto).
      rewrite Hmissing in Hm. exact Hm. }
    split; [apply Hreq; now left|].
    split; [apply Hreq; right; now left|].
    split; [reflexivity|]. split; [reflexivity|]. split.
    + intros err Herr. rewrite Herr. split; [reflexivity|].
      cbn [snd]. rewrite trace_set_environ, trace_emit. reflexivity.
    + intros Haccept. rewrite Haccept. split; [reflexivity|].
      cbn [snd]. rewrite !trace_emit, trace_set_environ, trace_emit, <- app_assoc.
      reflexivity.
  - destruct (load_env_cases w) as [[e [He _]] | [file (Hfile & Hne & Hmissing)]].
    + rewrite (scripts_init_fails w e He), scripts_load_env_run.
      cbn [snd]. rewrite load_env_outcome_trace, network_calls_app.
      apply Nat.add_0_r.
    + rewrite (scripts_init_loaded w file Hfile Hne Hmissing).
      destruct (openai_rejects w _ _); now count_calls.
Qed.

Lemma scripts_init_contract_witness :
  fst (ScriptsBeauti.__init__ (sample_world (Some full_dotenv) hello_endpoint)) =
    Ok sample_scripts
  /\ fst (ScriptsBeauti.__init__ (strict_world (Some full_dotenv) hello_endpoint)) =
     Raise (ClientError (lit "Invalid URL"))
  /\ is_environment_error
       (EnvironmentVariableError (lit "Missing environment variables: GLM_API")).
Proof.
  destruct (scripts_init_contract (sample_world (Some full_dotenv) hello_endpoint))
    as (_ & Hok & _).
  destruct (scripts_init_contract (strict_world (Some full_dotenv) hello_endpoint))
    as (_ & Hstrict & _).
  destruct (scripts_init_contract (sample_world (Some url_only_dotenv) hello_endpoint))
    as (Hfail & _ & _).
  split; [|split].
  - destruct (Hok sample_config) as (key & url & _ & _ & Hkey & Hurl & _ & Hinit).
    { vm_compute. reflexivity. }
    destruct (Hinit eq_refl) as [Hrun _]. rewrite Hrun.
    vm_compute in Hkey, Hurl.
    injection Hkey as <-. injection Hurl as <-. reflexivity.
  - destruct (Hstrict sample_config) as (key & url & _ & _ & _ & _ & Hreject & _).
    { vm_compute. reflexivity. }
    apply (Hreject (lit "Invalid URL")). reflexivity.
  - apply (Hfail (EnvironmentVariableError
                    (lit "Missing environment variables: GLM_API"))).
    vm_compute. reflexivity.
Defined.

(** ** How many requests a run sends *)

Lemma chinese_is_not_english text :
  ScriptsBeauti.check_language text = lit "Chinese" ->
  ScriptsBeauti.check_language text <> lit "English".
Proof. intros ->. discriminate. Qed.

Lemma scripts_handle_translation_run trans text for_git w :
  ScriptsBeauti.check_language text = lit "Chinese" ->
  ScriptsBeauti.handle_translation trans text for_git w =
  chain_outcome scripts_answer
    (fun t => translate_messages t (default true for_git))
    (fun t => beautify_messages t (default true for_git))
    (ScriptsBeauti.model trans) text w.
Proof.
  intros Hlang. unfold ScriptsBeauti.handle_translation, str_eqb, chain_outcome.
  rewrite bool_decide_eq_true_2 by exact Hlang.
  unfold bind at 1. rewrite scripts_translate_run.
  destruct (endpoint w (trace w) _ _) as [r1 | err]; [|reflexivity].
  unfold bind at 1. unfold logging_info at 1. rewrite percent_format_s.
  unfold bind at 1. rewrite scripts_beautify_run.
  cbn [endpoint emit scripts_answer].
  destruct (endpoint w _ _ _) as [r2 | err]; [|reflexivity].
  unfold logging_info. rewrite percent_format_s. reflexivity.
Qed.

Lemma scripts_handle_beautification_run trans text for_git w :
  ScriptsBeauti.check_language text = lit "English" ->
  ScriptsBeauti.handle_beautification trans text for_git w =
  single_outcome scripts_answer
    (fun t => beautify_messages t (default true for_git))
    (ScriptsBeauti.model trans) text w.
Proof.
  intros Hlang. unfold ScriptsBeauti.handle_beautification, str_eqb, single_outcome.
  rewrite bool_decide_eq_true_2 by exact Hlang.
  unfold bind at 1. rewrite scripts_beautify_run.
  destruct (endpoint w (trace w) _ _) as [r | err]; [|reflexivity].
  unfold logging_info. rewrite percent_format_s. reflexivity.
Qed.

Lemma beauti_handle_translation_run trans text w :
  Beauti.check_language text = lit "Chinese" ->
  Beauti.handle_translation trans text w =
  chain_outcome beauti_answer beauti_translate_messages beauti_beautify_messages
    (Beauti.model trans) text w.
Proof.
  intros Hlang. unfold Beauti.handle_translation, str_eqb, chain_outcome.
  rewrite bool_decide_eq_true_2 by exact Hlang.
  unfold bind at 1. rewrite beauti_translate_run. unfold beauti_answer at 1.
  destruct (endpoint w (trace w) _ _) as [r1 | err]; [|reflexivity].
  destruct (Completion.choices r1); [reflexivity|].
  unfold bind at 1. unfold logging_info at 1. rewrite percent_format_s.
  unfold bind at 1. rewrite beauti_beautify_run.
  cbn [endpoint emit beauti_answer].
  destruct (endpoint w _ _ _) as [r2 | err]; [|reflexivity].
  cbn [beauti_answer]. destruct (Completion.choices r2); [reflexivity|].
  unfold logging_info. rewrite percent_format_s. reflexivity.
Qed.

Lemma beauti_handle_beautification_run trans text w :
  Beauti.check_language text = lit "English" ->
  Beauti.handle_beautification trans text w =
  single_outcome beauti_answer beauti_beautify_messages (Beauti.model trans) text w.
Proof.
  intros Hlang. unfold Beauti.handle_beautification, str_eqb, single_outcome.
  rewrite bool_decide_eq_true_2 by exact Hlang.
  unfold bind at 1. rewrite beauti_beautify_run. unfold beauti_answer.
  destruct (endpoint w (trace w) _ _) as [r | err]; [|reflexivity].
  destruct (Completion.choices r); [reflexivity|].
  unfold logging_info. rewrite percent_format_s. reflexivity.
Qed.

Lemma chain_outcome_calls answer first second model text w :
  (fst (chain_outcome answer first second model text w) = Ok tt ->
   network_calls (trace (snd (chain_outcome answer first second model text w))) =
   S (S (network_calls (trace w))))
  /\ (S (network_calls (trace w)) <=
      network_calls (trace (snd (chain_outcome answer first second model text w)))
      <= S (S (network_calls (trace w))))%nat.
Proof.
  unfold chain_outcome. cbv zeta.
  destruct (answer (endpoint w (trace w) model (first text))) as [eng|e].
  - destruct (answer _) as [polished|e]; count_calls;
      split; intros; first [reflexivity | lia | congruence].
  - count_calls. split; intros; first [lia | congruence].
Qed.

Lemma single_outcome_calls answer request model text w :
  network_calls (trace (snd (single_outcome answer request model text w))) =
  S (network_calls (trace w)).
Proof.
  unfold single_outcome. cbv zeta.
  destruct (answer _) as [polished|e]; now count_calls.
Qed.

Lemma scripts_handle_translation_calls trans text for_git w :
  (ScriptsBeauti.check_language text <> lit "Chinese" ->
   network_calls (trace (snd (ScriptsBeauti.handle_translation trans text for_git w))) =
   network_calls (trace w))
  /\ (ScriptsBeauti.check_language text = lit "Chinese" ->
      (network_calls
         (trace (snd (ScriptsBeauti.handle_translation trans text for_git w))) <=
       S (S (network_calls (trace w))))%nat).
Proof.
  split; intros Hlang.
  - rewrite scripts_handle_translation_other by exact Hlang. now count_calls.
  - rewrite scripts_handle_translation_run by exact Hlang.
    apply chain_outcome_calls.
Qed.

Lemma scripts_handle_beautification_calls trans text for_git w :
  (ScriptsBeauti.check_language text <> lit "English" ->
   network_calls
     (trace (snd (ScriptsBeauti.handle_beautification trans text for_git w))) =
   network_calls (trace w))
  /\ (ScriptsBeauti.check_language text = lit "English" ->
      network_calls
        (trace (snd (ScriptsBeauti.handle_beautification trans text for_git w))) =
      S (network_calls (trace w))).
Proof.
  split; intros Hlang.
  - rewrite scripts_handle_beautification_other by exact Hlang. now count_calls.
  - rewrite scripts_handle_beautification_run by exact Hlang.
    apply single_outcome_calls.
Qed.

Lemma beauti_handle_translation_calls trans text w :
  (Beauti.check_language text <> lit "Chinese" ->
   network_calls (trace (snd (Beauti.handle_translation trans text w))) =
   network_calls (trace w))
  /\ (Beauti.check_language text = lit "Chinese" ->
      (network_calls (trace (snd (Beauti.handle_translation trans text w))) <=
       S (S (network_calls (trace w))))%nat).
Proof.
  split; intros Hlang.
  - rewrite beauti_handle_translation_other by exact Hlang. now count_calls.
  - rewrite beauti_handle_translation_run by exact Hlang.
    apply chain_outcome_calls.
Qed.

Lemma beauti_handle_beautification_calls trans text w :
  (Beauti.check_language text <> lit "English" ->
   network_calls (trace (snd (Beauti.handle_beautification trans text w))) =
   network_calls (trace w))
  /\ (Beauti.check_language text = lit "English" ->
      network_calls (trace (snd (Beauti.handle_beautification trans text w))) =
      S (network_calls (trace w))).
Proof.
  split; intros Hlang.
  - rewrite beauti_handle_beautification_other by exact Hlang. now count_calls.
  - rewrite beauti_handle_beautification_run by exact Hlang.
    apply single_outcome_calls.
Qed.

Lemma scripts_init_calls w :
  network_calls (trace (snd (ScriptsBeauti.__init__ w))) = network_calls (trace w).
Proof.
  destruct (load_env_cases w) as [[e [He _]] | [file (Hfile & Hne & Hmissing)]].
  - rewrite (scripts_init_fails w e He), scripts_load_env_run.
    cbn [snd]. rewrite load_env_outcome_trace, network_calls_app.
    apply Nat.add_0_r.
  - rewrite (scripts_init_loaded w file Hfile Hne Hmissing).
    destruct (openai_rejects w _ _); now count_calls.
Qed.

Lemma beauti_init_calls w :
  network_calls (trace (snd (Beauti.__init__ w))) = network_calls (trace w).
Proof.
  destruct (load_env_cases w) as [[e [He _]] | [file (Hfile & Hne & Hmissing)]].
  - rewrite (beauti_init_fails w e He), load_env_same, scripts_load_env_run.
    cbn [snd]. rewrite load_env_outcome_trace, network_calls_app.
    apply Nat.add_0_r.
  - rewrite (beauti_init_loaded w file Hfile Hne Hmissing).
    destruct (openai_rejects w _ _); now count_calls.
Qed.

(** The two gates of the dispatcher never both reach the endpoint for the
    same text: a text detected as Chinese is not detected as English.  So
    for every text, one of the two handlers sends no request at all. *)
Theorem gates_are_exclusive text :
  (forall trans flag w,
     network_calls
       (trace (snd (ScriptsBeauti.handle_translation trans text flag w))) =
     network_calls (trace w))
  \/ (forall trans flag w,
        network_calls
          (trace (snd (ScriptsBeauti.handle_beautification trans text flag w))) =
        network_calls (trace w)).
Proof.
  destruct (decide (ScriptsBeauti.check_language text = lit "Chinese")) as [Hc | Hc].
  - right. intros trans flag w. apply scripts_handle_beautification_calls.
    now apply chinese_is_not_english.
  - left. intros trans flag w. now apply scripts_handle_translation_calls.
Qed.

Lemma scripts_main_calls args w :
  (network_calls (trace (snd (ScriptsBeauti.main args w))) <=
   network_calls (trace w) + 2)%nat.
Proof.
  unfold ScriptsBeauti.main.
  set (text := join (lit " ") (Namespace.content args)).
  destruct (negb (Namespace.translate args) && negb (Namespace.beautify args)).
  { unfold logging_info. count_calls. lia. }
  unfold bind at 1.
  pose proof (scripts_init_calls w) as Hinit.
  destruct (ScriptsBeauti.__init__ w) as [[trans|e] w2]; cbn [snd] in *;
    [|lia].
  set (flag := Some (Namespace.github args)).
  unfold bind at 1.
  destruct (scripts_handle_translation_calls trans text flag w2) as [Hother Hchinese].
  destruct (scripts_handle_beautification_calls trans text flag w2) as [Hb0 Hb1].
  destruct (Namespace.translate args).
  - destruct (ScriptsBeauti.handle_translation trans text flag w2)
      as [[[]|e] w3] eqn:Ht; cbn [snd] in *.
    + destruct (scripts_handle_beautification_calls trans text flag w3)
        as [Hc0 Hc1].
      destruct (decide (ScriptsBeauti.check_language text = lit "Chinese"))
        as [Hc | Hc].
      * specialize (Hchinese Hc).
        destruct (Namespace.beautify args); cbn [ret snd]; [|lia].
        rewrite (Hc0 (chinese_is_not_english text Hc)). lia.
      * specialize (Hother Hc).
        destruct (Namespace.beautify args); cbn [ret snd]; [|lia].
        destruct (decide (ScriptsBeauti.check_language text = lit "English"))
          as [He | He]; [rewrite (Hc1 He) | rewrite (Hc0 He)]; lia.
    + destruct (decide (ScriptsBeauti.check_language text = lit "Chinese"))
        as [Hc | Hc].
      * specialize (Hchinese Hc). lia.
      * specialize (Hother Hc). lia.
  - cbn [ret]. destruct (Namespace.beautify args); cbn [ret snd]; [|lia].
    destruct (decide (ScriptsBeauti.check_language text = lit "English"))
      as [He | He]; [rewrite (Hb1 He) | rewrite (Hb0 He)]; lia.
Qed.

Lemma beauti_main_calls args w :
  (network_calls (trace (snd (Beauti.main args w))) <=
   network_calls (trace w) + 2)%nat.
Proof.
  unfold Beauti.main.
  set (text := join (lit " ") (Namespace.content args)).
  destruct (negb (Namespace.translate args) && negb (Namespace.beautify args)).
  { unfold logging_info. count_calls. lia. }
  unfold bind at 1.
  pose proof (beauti_init_calls w) as Hinit.
  destruct (Beauti.__init__ w) as [[trans|e] w2]; cbn [snd] in *; [|lia].
  unfold bind at 1.
  destruct (beauti_handle_translation_calls trans text w2) as [Hother Hchinese].
  destruct (beauti_handle_beautification_calls trans text w2) as [Hb0 Hb1].
  destruct (Namespace.translate args).
  - destruct (Beauti.handle_translation trans text w2)
      as [[[]|e] w3] eqn:Ht; cbn [snd] in *.
    + destruct (beauti_handle_beautification_calls trans text w3) as [Hc0 Hc1].
      destruct (decide (Beauti.check_language text = lit "Chinese")) as [Hc | Hc].
      * specialize (Hchinese Hc).
        destruct (Namespace.beautify args); cbn [ret snd]; [|lia].
        rewrite (Hc0 (chinese_is_not_english text Hc)). lia.
      * specialize (Hother Hc).
        destruct (Namespace.beautify args); cbn [ret snd]; [|lia].
        destruct (decide (Beauti.check_language text = lit "English"))
          as [He | He]; [rewrite (Hc1 He) | rewrite (Hc0 He)]; lia.
    + destruct (decide (Beauti.check_language text = lit "Chinese")) as [Hc | Hc].
      * specialize (Hchinese Hc). lia.
      * specialize (Hother Hc). lia.
  - cbn [ret]. destruct (Namespace.beautify args); cbn [ret snd]; [|lia].
    destruct (decide (Beauti.check_language text = lit "English"))
      as [He | He]; [rewrite (Hb1 He) | rewrite (Hb0 He)]; lia.
Qed.

(** One run of [main] sends at most two requests, in either variant,
    whatever the flags, the text, the configuration and the behaviour of the
    endpoint. *)
Theorem main_at_most_two_requests args w :
  (network_calls (trace (snd (ScriptsBeauti.main args w))) <=
   network_calls (trace w) + 2)%nat
  /\ (network_calls (trace (snd (Beauti.main args w))) <=
      network_calls (trace w) + 2)%nat.
Proof. split; [apply scripts_main_calls | apply beauti_main_calls]. Qed.

(** ** Failures inside the handlers *)

(** In the second variant's [handle_translation] on Chinese text, a failure
    of the translate request ends the handler at once: nothing is logged and
    no beautify request is sent.  A failure of the beautify request comes
    after the translation has been logged, so that line is not lost. *)
Theorem handle_translation_failure trans text for_git w :
  let flag := default true for_git in
  let model := ScriptsBeauti.model trans in
  ScriptsBeauti.check_language text = lit "Chinese" ->
  (forall err,
     endpoint w (trace w) model (translate_messages text flag) = Raises err ->
     ScriptsBeauti.handle_translation trans text for_git w =
       (Raise (APIError err), emit (EvCreate model (translate_messages text flag)) w))
  /\ (forall r1 err,
        let eng := reply_text r1 in
        let w1 := emits [EvCreate model (translate_messages text flag); EvInfo eng] w in
        endpoint w (trace w) model (translate_messages text flag) = Returns r1 ->
        endpoint w (trace w1) model (beautify_messages eng flag) = Raises err ->
        ScriptsBeauti.handle_translation trans text for_git w =
          (Raise (APIError err), emit (EvCreate model (beautify_messages eng flag)) w1)).
Proof.
  intros flag model Hlang. rewrite scripts_handle_translation_run by exact Hlang.
  unfold chain_outcome. fold flag model. split.
  - intros err H. rewrite H. reflexivity.
  - intros r1 err. cbv zeta. intros H1 H2. rewrite H1. cbn [scripts_answer].
    unfold emits in H2. cbn [fold_left] in H2. rewrite H2. reflexivity.
Qed.

Lemma handle_translation_failure_witness :
  ScriptsBeauti.handle_translation sample_scripts NI_HAO (Some true)
    (sample_world None failing_endpoint) =
    (Raise (APIError (lit "timeout")),
     emit (EvCreate (lit "glm4") (translate_messages NI_HAO true))
       (sample_world None failing_endpoint))
  /\ trace (snd (ScriptsBeauti.handle_translation sample_scripts NI_HAO (Some true)
                   (sample_world None flaky_endpoint))) =
     [EvCreate (lit "glm4") (translate_messages NI_HAO true);
      EvInfo (lit "Hello");
      EvCreate (lit "glm4") (beautify_messages (lit "Hello") true)].
Proof.
  split.
  - apply (handle_translation_failure sample_scripts NI_HAO (Some true)
             (sample_world None failing_endpoint)); reflexivity.
  - destruct (handle_translation_failure sample_scripts NI_HAO (Some true)
                (sample_world None flaky_endpoint) eq_refl) as [_ H].
    rewrite (H hello_completion (lit "timeout") eq_refl eq_refl). reflexivity.
Defined.

(** In the first variant a completion without choices makes the handlers
    fail with [IndexError] right after the request: [handle_translation]
    logs nothing and never reaches the beautify step, and
    [handle_beautification] logs nothing. *)
Theorem beauti_handlers_empty_choices trans text w :
  let model := Beauti.model trans in
  (Beauti.check_language text = lit "Chinese" ->
   endpoint w (trace w) model (beauti_translate_messages text) =
     Returns (Completion.Build []) ->
   Beauti.handle_translation trans text w =
     (Raise IndexError, emit (EvCreate model (beauti_translate_messages text)) w))
  /\ (Beauti.check_language text = lit "English" ->
      endpoint w (trace w) model (beauti_beautify_messages text) =
        Returns (Completion.Build []) ->
      Beauti.handle_beautification trans text w =
        (Raise IndexError, emit (EvCreate model (beauti_beautify_messages text)) w)).
Proof.
  intros model. split; intros Hlang H.
  - rewrite beauti_handle_translation_run by exact Hlang.
    unfold chain_outcome. fold model. rewrite H. reflexivity.
  - rewrite beauti_handle_beautification_run by exact Hlang.
    unfold single_outcome. fold model. rewrite H. reflexivity.
Qed.

Lemma beauti_handlers_empty_choices_witness :
  Beauti.handle_translation sample_beauti NI_HAO (sample_world None no_choice_endpoint) =
    (Raise IndexError,
     emit (EvCreate (lit "glm4") (beauti_translate_messages NI_HAO))
       (sample_world None no_choice_endpoint))
  /\ Beauti.handle_beautification sample_beauti (lit "hello")
       (sample_world None no_choice_endpoint) =
     (Raise IndexError,
      emit (EvCreate (lit "glm4") (beauti_beautify_messages (lit "hello")))
        (sample_world None no_choice_endpoint)).
Proof.
  split.
  - apply (beauti_handlers_empty_choices sample_beauti NI_HAO
             (sample_world None no_choice_endpoint)); reflexivity.
  - apply (beauti_handlers_empty_choices sample_beauti (lit "hello")
             (sample_world None no_choice_endpoint)); reflexivity.
Defined.

(** ** Whole runs of [main] *)

(** When an action is requested and the configuration loader fails, [main]
    of either variant fails with the loader's [EnvironmentVariableError]
    having only tried to load the [.env] file: no client is built, no
    request is sent and no line is logged. *)
Theorem main_configuration_failure args w e :
  Namespace.translate args = true \/ Namespace.beautify args = true ->
  fst (ScriptsBeauti.load_env w) = Raise e ->
  ScriptsBeauti.main args w = (Raise e, snd (ScriptsBeauti.load_env w))
  /\ Beauti.main args w = (Raise e, snd (Beauti.load_env w))
  /\ is_environment_error e
  /\ trace (snd (ScriptsBeauti.load_env w)) = trace w ++ [EvLoadDotenv].
Proof.
  intros Hflag He.
  assert (Hgate : negb (Namespace.translate args) && negb (Namespace.beautify args)
                  = false).
  { destruct Hflag as [-> | ->]; [reflexivity | apply andb_false_r]. }
  unfold ScriptsBeauti.main, Beauti.main. rewrite Hgate.
  unfold bind at 1. rewrite (scripts_init_fails w e He).
  unfold bind at 1. rewrite (beauti_init_fails w e He).
  repeat split.
  - rewrite scripts_load_env_run in He. now apply load_env_outcome_error in He.
  - rewrite scripts_load_env_run. apply load_env_outcome_trace.
Qed.

Lemma main_configuration_failure_witness :
  ScriptsBeauti.main (Namespace.Build [NI_HAO] false true false)
    (sample_world (Some url_only_dotenv) hello_endpoint) =
  (Raise (EnvironmentVariableError (lit "Missing environment variables: GLM_API")),
   snd (ScriptsBeauti.load_env (sample_world (Some url_only_dotenv) hello_endpoint))).
Proof.
  apply (main_configuration_failure (Namespace.Build [NI_HAO] false true false)
           (sample_world (Some url_only_dotenv) hello_endpoint)).
  - left. reflexivity.
  - vm_compute. reflexivity.
Defined.

(** With [-t] and [-b] together on Chinese text, a complete configuration
    the client accepts and an endpoint that answers both requests, the
    second variant's [main]
    runs the translate gate before the beautify gate: it loads the
    configuration, builds the client, sends the translate request, logs the
    translation, sends the beautify request for it, logs the result, and then
    logs the beautify gate's corrective hint without a third request. *)
Theorem scripts_main_both_flags args w file r1 r2 :
  let env := loaded_environ (environ w) file in
  let key := setting env (lit "GLM_API") in
  let url := setting env (lit "API_URL") in
  let text := join (lit " ") (Namespace.content args) in
  let flag := Namespace.github args in
  let eng := reply_text r1 in
  let w0 := emit (EvOpenAI key url) (set_environ env (emit EvLoadDotenv w)) in
  let w1 := emits [EvCreate (lit "glm4") (translate_messages text flag); EvInfo eng] w0 in
  dotenv w = Some file -> file <> ∅ -> missing_names env = [] ->
  openai_rejects w key url = None ->
  Namespace.translate args = true -> Namespace.beautify args = true ->
  ScriptsBeauti.check_language text = lit "Chinese" ->
  endpoint w (trace w0) (lit "glm4") (translate_messages text flag) = Returns r1 ->
  endpoint w (trace w1) (lit "glm4") (beautify_messages eng flag) = Returns r2 ->
  ScriptsBeauti.main args w =
    (Ok tt,
     emits [EvCreate (lit "glm4") (beautify_messages eng flag);
            EvInfo (reply_text r2);
            EvInfo BEAUTIFY_HINT] w1).
Proof.
  intros env key url text flag eng w0 w1 Hfile Hne Hmissing Haccept Ht Hb Hlang H1 H2.
  unfold ScriptsBeauti.main. rewrite Ht, Hb. cbn [negb andb].
  unfold bind at 1. rewrite (scripts_init_run w file Hfile Hne Hmissing Haccept).
  fold env key url text flag w0.
  unfold bind at 1. rewrite scripts_handle_translation_run by exact Hlang.
  unfold chain_outcome. cbn [ScriptsBeauti.model].
  change (endpoint w0) with (endpoint w).
  change (default true (Some flag)) with flag.
  rewrite H1. cbn [scripts_answer]. fold eng.
  change (emit (EvInfo eng)
            (emit (EvCreate (lit "glm4") (translate_messages text flag)) w0))
    with w1.
  rewrite H2. cbn [scripts_answer].
  rewrite scripts_handle_beautification_other
    by (now apply chinese_is_not_english).
  reflexivity.
Qed.

Lemma scripts_main_both_flags_witness :
  trace (snd (ScriptsBeauti.main (Namespace.Build [NI_HAO] true true false)
                (sample_world (Some full_dotenv) hello_endpoint))) =
  [EvLoadDotenv;
   EvOpenAI (lit "secret") (lit "https://example.invalid/v4");
   EvCreate (lit "glm4") (translate_messages NI_HAO false);
   EvInfo (lit "Hello");
   EvCreate (lit "glm4") (beautify_messages (lit "Hello") false);
   EvInfo (lit "Hello");
   EvInfo BEAUTIFY_HINT].
Proof.
  assert (Hne : full_dotenv <> ∅).
  { intros E. apply (f_equal (fun m => m !! lit "API_URL")) in E.
    vm_compute in E. discriminate E. }
  rewrite (scripts_main_both_flags (Namespace.Build [NI_HAO] true true false)
             (sample_world (Some full_dotenv) hello_endpoint) full_dotenv
             hello_completion hello_completion eq_refl Hne);
    try reflexivity.
  all: vm_compute; reflexivity.
Defined.

(** ** How often a run calls [logging.info] *)

Lemma lines_emit_info line w :
  log_lines (trace (emit (EvInfo line) w)) = S (log_lines (trace w)).
Proof.
  rewrite trace_emit. unfold log_lines.
  rewrite List.filter_app, length_app. apply Nat.add_1_r.
Qed.

Lemma lines_emit_other e w :
  is_info e = false -> log_lines (trace (emit e w)) = log_lines (trace w).
Proof.
  intros H. rewrite trace_emit. unfold log_lines.
  rewrite List.filter_app, length_app. simpl. rewrite H. apply Nat.add_0_r.
Qed.

Ltac count_lines :=
  cbn [snd fst];
  repeat first
    [ rewrite lines_emit_info
    | rewrite lines_emit_other by reflexivity
    | rewrite trace_set_environ ].

Lemma chain_outcome_lines answer first second model text w :
  fst (chain_outcome answer first second model text w) = Ok tt ->
  log_lines (trace (snd (chain_outcome answer first second model text w))) =
  S (S (log_lines (trace w))).
Proof.
  unfold chain_outcome. cbv zeta.
  destruct (answer (endpoint w (trace w) model (first text))) as [eng|e].
  - destruct (answer _) as [polished|e]; cbn [fst]; intros H;
      [now count_lines | discriminate H].
  - cbn [fst]. intros H. discriminate H.
Qed.

Lemma single_outcome_lines answer request model text w :
  fst (single_outcome answer request model text w) = Ok tt ->
  log_lines (trace (snd (single_outcome answer request model text w))) =
  S (log_lines (trace w)).
Proof.
  unfold single_outcome. cbv zeta.
  destruct (answer _) as [polished|e]; cbn [fst]; intros H;
    [now count_lines | discriminate H].
Qed.

Lemma scripts_init_lines w :
  log_lines (trace (snd (ScriptsBeauti.__init__ w))) = log_lines (trace w).
Proof.
  destruct (load_env_cases w) as [[e [He _]] | [file (Hfile & Hne & Hmissing)]].
  - rewrite (scripts_init_fails w e He), scripts_load_env_run.
    cbn [snd]. rewrite load_env_outcome_trace. unfold log_lines.
    rewrite List.filter_app, length_app. apply Nat.add_0_r.
  - rewrite (scripts_init_loaded w file Hfile Hne Hmissing).
    destruct (openai_rejects w _ _); now count_lines.
Qed.

Lemma scripts_handle_translation_lines trans text for_git w :
  fst (ScriptsBeauti.handle_translation trans text for_git w) = Ok tt ->
  log_lines (trace (snd (ScriptsBeauti.handle_translation trans text for_git w))) =
  (log_lines (trace w)
   + if str_eqb (ScriptsBeauti.check_language text) (lit "Chinese") then 2 else 1)%nat.
Proof.
  unfold str_eqb. case_bool_decide as Hlang.
  - rewrite scripts_handle_translation_run by exact Hlang.
    intros H. rewrite chain_outcome_lines by exact H. lia.
  - rewrite scripts_handle_translation_other by exact Hlang.
    intros _. count_lines. lia.
Qed.

Lemma scripts_handle_beautification_lines trans text for_git w :
  fst (ScriptsBeauti.handle_beautification trans text for_git w) = Ok tt ->
  log_lines (trace (snd (ScriptsBeauti.handle_beautification trans text for_git w))) =
  S (log_lines (trace w)).
Proof.
  destruct (decide (ScriptsBeauti.check_language text = lit "English")) as [Hlang | Hlang].
  - rewrite scripts_handle_beautification_run by exact Hlang.
    apply single_outcome_lines.
  - rewrite scripts_handle_beautification_other by exact Hlang.
    intros _. now count_lines.
Qed.

(** In a run of the second variant's [main] that ends without an exception,
    the program's own code has called [logging.info] exactly as often as its
    flags call for: once for the usage hint when no action is requested;
    otherwise, for [-t], twice on Chinese text (translation and its polished
    form) or once for the hint, and for [-b] once (result or hint).  So the
    program itself makes between one and three such calls. *)
Theorem scripts_main_log_lines args w :
  fst (ScriptsBeauti.main args w) = Ok tt ->
  log_lines (trace (snd (ScriptsBeauti.main args w))) =
    (log_lines (trace w) + expected_log_lines args)%nat
  /\ (1 <= expected_log_lines args <= 3)%nat.
Proof.
  unfold ScriptsBeauti.main, expected_log_lines.
  set (text := join (lit " ") (Namespace.content args)).
  destruct (negb (Namespace.translate args) && negb (Namespace.beautify args)) eqn:Hgate.
  { intros _. unfold logging_info. count_lines. lia. }
  unfold bind.
  pose proof (scripts_init_lines w) as Hinit.
  destruct (ScriptsBeauti.__init__ w) as [[trans|e] w2]; cbn [snd fst] in *;
    [|discriminate].
  set (flag := Some (Namespace.github args)).
  pose proof (scripts_handle_translation_lines trans text flag w2) as Ht.
  destruct (Namespace.translate args), (Namespace.beautify args);
    try discriminate Hgate.
  - destruct (ScriptsBeauti.handle_translation trans text flag w2)
      as [[[]|e] w3]; cbn [snd fst] in *; [|discriminate].
    intros Hb. rewrite (scripts_handle_beautification_lines trans text flag w3 Hb).
    rewrite (Ht eq_refl), Hinit.
    destruct (str_eqb _ _); lia.
  - destruct (ScriptsBeauti.handle_translation trans text flag w2)
      as [[[]|e] w3]; cbn [snd fst ret] in *; [|discriminate].
    intros _. rewrite (Ht eq_refl), Hinit.
    destruct (str_eqb _ _); lia.
  - cbn [ret]. intros Hb.
    rewrite (scripts_handle_beautification_lines trans text flag w2 Hb), Hinit.
    lia.
Qed.

Lemma scripts_main_log_lines_witness :
  log_lines
    (trace (snd (ScriptsBeauti.main (Namespace.Build [NI_HAO] true true false)
                   (sample_world (Some full_dotenv) hello_endpoint)))) = 3%nat.
Proof.
  destruct (scripts_main_log_lines (Namespace.Build [NI_HAO] true true false)
              (sample_world (Some full_dotenv) hello_endpoint)) as [H _].
  - vm_compute. reflexivity.
  - rewrite H. reflexivity.
Defined.

(** ** One request per operation *)

(** [translate] and [beautify] of either variant send exactly one request
    each and log nothing themselves, whether the endpoint answers, answers
    without a choice, or fails. *)
Theorem transform_operations_send_one_request :
  (forall self text for_git w,
     network_calls (trace (snd (ScriptsBeauti.translate self text for_git w))) =
       S (network_calls (trace w))
     /\ log_lines (trace (snd (ScriptsBeauti.translate self text for_git w))) =
        log_lines (trace w)
     /\ network_calls (trace (snd (ScriptsBeauti.beautify self text for_git w))) =
        S (network_calls (trace w))
     /\ log_lines (trace (snd (ScriptsBeauti.beautify self text for_git w))) =
        log_lines (trace w))
  /\ (forall self text w,
        network_calls (trace (snd (Beauti.translate self text w))) =
          S (network_calls (trace w))
        /\ log_lines (trace (snd (Beauti.translate self text w))) =
           log_lines (trace w)
        /\ network_calls (trace (snd (Beauti.beautify self text w))) =
           S (network_calls (trace w))
        /\ log_lines (trace (snd (Beauti.beautify self text w))) =
           log_lines (trace w)).
Proof.
  split.
  - intros self text for_git w.
    rewrite scripts_translate_run, scripts_beautify_run.
    repeat split; first [now count_calls | now count_lines].
  - intros self text w.
    rewrite beauti_translate_run, beauti_beautify_run.
    repeat split; first [now count_calls | now count_lines].
Qed.
